(** * CNA_SQL: KPI classification, stock status and pivoting

    A shallow embedding of the in-memory transformation steps of the
    reporting scripts (MatplotLib_code/monthly_performance(kpis).py,
    MatplotLib_code/store_vs_product.py,
    MatplotLib_code/storeid_numberofproducts_stock.py, db_connection.py),
    and the properties of the specification checked against them. *)

From Stdlib Require Import List String Ascii Bool NArith ZArith QArith Lia Lqa.
From Stdlib Require Import Sorting.Sorted.
From Stdlib Require OrderedTypeEx.
Import ListNotations.
Local Open Scope string_scope.
Local Open Scope list_scope.

(** ** Python values and exceptions *)

(** The measures the scripts handle are what pandas hands out for a numeric
    SQL column: a finite number, NaN (SQL NULL in a numeric column), or
    None (an object column).  A finite double is a rational number, and the
    comparisons of doubles are the comparisons of these rationals; a decimal
    literal of the source stands for the rational it denotes. *)
Inductive pyval : Type :=
  | PyNum (q : Q)
  | PyNaN
  | PyNone.

Inductive exn : Type :=
  | TypeError
  | KeyError
  | DatabaseError
  | SystemExit (status : Z).

(** A computation either returns or raises. *)
Inductive result (A : Type) : Type :=
  | Ok (a : A)
  | Raise (e : exn).
Arguments Ok {A} a.
Arguments Raise {A} e.

Definition bind {A B : Type} (m : result A) (f : A -> result B) : result B :=
  match m with
  | Ok a => f a
  | Raise e => Raise e
  end.

Notation "x <- m ;; k" := (bind m (fun x => k))
  (at level 61, m at next level, right associativity).

Definition Qltb (x y : Q) : bool := negb (Qle_bool y x).

(** [a < b], [a <= b], [a > b], [a >= b] of Python: every comparison with
    NaN is False, an ordering comparison with None raises TypeError. *)
Definition py_lt (a b : pyval) : result bool :=
  match a, b with
  | PyNum x, PyNum y => Ok (Qltb x y)
  | PyNone, _ | _, PyNone => Raise TypeError
  | _, _ => Ok false
  end.

Definition py_le (a b : pyval) : result bool :=
  match a, b with
  | PyNum x, PyNum y => Ok (Qle_bool x y)
  | PyNone, _ | _, PyNone => Raise TypeError
  | _, _ => Ok false
  end.

Definition py_gt (a b : pyval) : result bool := py_lt b a.
Definition py_ge (a b : pyval) : result bool := py_le b a.

(** [a == b]: never raises; NaN differs from everything, itself included. *)
Definition py_eq (a b : pyval) : bool :=
  match a, b with
  | PyNum x, PyNum y => Qeq_bool x y
  | PyNone, PyNone => true
  | _, _ => false
  end.

(** [a * b] on numbers. *)
Definition py_mul (a b : pyval) : result pyval :=
  match a, b with
  | PyNum x, PyNum y => Ok (PyNum (x * y))
  | PyNone, _ | _, PyNone => Raise TypeError
  | _, _ => Ok PyNaN
  end.

(** ** Lists as pandas and Python use them *)

Section ListOps.
Context {A : Type}.
Variable eqb : A -> A -> bool.
Variable leb : A -> A -> bool.

(** [Series.unique()]: the distinct values, in order of first appearance. *)
Fixpoint unique_from (seen : list A) (l : list A) : list A :=
  match l with
  | [] => []
  | x :: t =>
      if existsb (eqb x) seen then unique_from seen t
      else x :: unique_from (x :: seen) t
  end.

Definition unique (l : list A) : list A := unique_from [] l.

(** [sorted(l)]: a stable sort by [<=]. *)
Fixpoint insert_sorted (x : A) (l : list A) : list A :=
  match l with
  | [] => [x]
  | y :: t => if leb x y then x :: y :: t else y :: insert_sorted x t
  end.

Definition sorted (l : list A) : list A := fold_right insert_sorted [] l.

(** Position of a label, as [Index.get_loc] finds it. *)
Fixpoint get_loc (x : A) (l : list A) : option nat :=
  match l with
  | [] => None
  | y :: t => if eqb x y then Some 0%nat else option_map S (get_loc x t)
  end.
End ListOps.

(** [l[-n:]] *)
Definition last_n {A : Type} (n : nat) (l : list A) : list A :=
  skipn (List.length l - n) l.

(** [enumerate(l)] *)
Fixpoint enumerate_from {A : Type} (i : nat) (l : list A) : list (nat * A) :=
  match l with
  | [] => []
  | x :: t => (i, x) :: enumerate_from (S i) t
  end.

Definition enumerate {A : Type} (l : list A) : list (nat * A) := enumerate_from 0 l.

(** A dict with string keys, as the list of its items; a later item for the
    same key replaces the earlier one, so lookup reads from the right. *)
Definition dict (V : Type) : Type := list (string * V).

Fixpoint dict_get {V : Type} (d : dict V) (k : string) : option V :=
  match d with
  | [] => None
  | (k', v) :: t =>
      match dict_get t k with
      | Some v' => Some v'
      | None => if k =? k' then Some v else None
      end
  end.

(** [d[k]] *)
Definition dict_item {V : Type} (d : dict V) (k : string) : result V :=
  match dict_get d k with
  | Some v => Ok v
  | None => Raise KeyError
  end.

Fixpoint mapM {A B : Type} (f : A -> result B) (l : list A) : result (list B) :=
  match l with
  | [] => Ok []
  | x :: t =>
      y <- f x ;;
      ys <- mapM f t ;;
      Ok (y :: ys)
  end.

(** ** DataFrame.pivot_table *)

Section PivotTable.
Context {R C V : Type}.
Variables (R_eqb R_leb : R -> R -> bool) (C_eqb C_leb : C -> C -> bool).
Variable aggfunc : list V -> V.

(** A frame: the row labels and, per column label, the column's cells in
    the order of the row labels.  A cell [None] is NaN. *)
Record frame : Type := {
  index : list R;
  columns : list (C * list (option V))
}.

(** The long table that is pivoted: (index key, column key, value). *)
Definition long_table : Type := list (R * C * option V).

(** With pandas' default [dropna=True], a group whose values are all NaN
    is dropped after aggregation, and [min] and [mean] skip NaN: the
    table is built from the rows that carry a value. *)
Definition observed (df : long_table) : list (R * C * V) :=
  flat_map (fun x => match snd x with
                     | Some v => [(fst (fst x), snd (fst x), v)]
                     | None => []
                     end) df.

Definition group (obs : list (R * C * V)) (r : R) (c : C) : list V :=
  map snd (filter (fun x => R_eqb (fst (fst x)) r && C_eqb (snd (fst x)) c) obs).

Definition pivot_cell (obs : list (R * C * V)) (fill_value : option V)
    (r : R) (c : C) : option V :=
  match group obs r c with
  | [] => fill_value
  | vs => Some (aggfunc vs)
  end.

(** [df.pivot_table(index=.., columns=.., values=.., aggfunc=.., fill_value=..)]:
    a dense table over the sorted observed keys. *)
Definition pivot_table (df : long_table) (fill_value : option V) : frame :=
  let obs := observed df in
  let idx := sorted R_leb (unique R_eqb (map (fun x => fst (fst x)) obs)) in
  let cols := sorted C_leb (unique C_eqb (map (fun x => snd (fst x)) obs)) in
  {| index := idx;
     columns := map (fun c => (c, map (fun r => pivot_cell obs fill_value r c) idx)) cols |}.

(** [c in f.columns] *)
Definition has_column (f : frame) (c : C) : bool :=
  existsb (fun col => C_eqb c (fst col)) (columns f).

(** [f[c] = v] for a scalar [v]. *)
Definition set_column (f : frame) (c : C) (v : option V) : frame :=
  let col := repeat v (List.length (index f)) in
  {| index := index f;
     columns :=
       if has_column f c
       then map (fun old => if C_eqb c (fst old) then (fst old, col) else old) (columns f)
       else columns f ++ [(c, col)] |}.

(** [if c not in f.columns: f[c] = v] *)
Definition ensure_column (v : option V) (f : frame) (c : C) : frame :=
  if negb (has_column f c) then set_column f c v else f.

(** [f.loc[r, c]] *)
Definition loc (f : frame) (r : R) (c : C) : result (option V) :=
  match find (fun col => C_eqb c (fst col)) (columns f), get_loc R_eqb r (index f) with
  | Some col, Some i =>
      match nth_error (snd col) i with
      | Some v => Ok v
      | None => Raise KeyError
      end
  | _, _ => Raise KeyError
  end.
End PivotTable.

Arguments frame : clear implicits.
Arguments long_table : clear implicits.

(** ** db_connection.py and the run of a script *)

Module DbConnection.

(** What a run does to the outside, in order. *)
Inductive event : Type :=
  | EvConnect                 (* pyodbc.connect(conn_str) *)
  | EvPrint (msg : string)    (* print(...) *)
  | EvReadSql                 (* pd.read_sql(query, conn) *)
  | EvClose                   (* conn.close() *)
  | EvDraw                    (* a call that draws on a figure *)
  | EvShow                    (* plt.show() *)
  | EvExit (status : Z).      (* the process ends *)

(** A statement sequence: the events so far, and a value or the exception
    that stopped it. *)
Definition io (A : Type) : Type := (list event * result A)%type.

Definition io_ret {A : Type} (a : A) : io A := ([], Ok a).

Definition io_bind {A B : Type} (m : io A) (f : A -> io B) : io B :=
  match snd m with
  | Ok a => (fst m ++ fst (f a), snd (f a))
  | Raise e => (fst m, Raise e)
  end.

Definition emit (e : event) : io unit := ([e], Ok tt).
Definition raise {A : Type} (e : exn) : io A := ([], Raise e).
Definition lift {A : Type} (r : result A) : io A := ([], r).

Notation "x <~ m ;; k" := (io_bind m (fun x => k))
  (at level 61, m at next level, right associativity).
Notation "m ;;; k" := (io_bind m (fun _ => k))
  (at level 61, right associativity).

(** [for x in l: body x] *)
Fixpoint for_each {A : Type} (l : list A) (body : A -> io unit) : io unit :=
  match l with
  | [] => io_ret tt
  | x :: t => body x ;;; for_each t body
  end.

(** The database as a run meets it: whether [pyodbc.connect] succeeds (it
    raises [pyodbc.Error] otherwise), and what the query gives. *)
Record world (DF : Type) : Type := {
  connect_ok : bool;
  read_sql : result DF
}.
Arguments connect_ok {DF} w.
Arguments read_sql {DF} w.

Inductive connection : Type := Conn.

Definition get_connection {DF : Type} (w : world DF) : io (option connection) :=
  emit EvConnect ;;;
  if connect_ok w then io_ret (Some Conn)
  else emit (EvPrint "Error connecting to database:") ;;; io_ret None.

(** The interpreter ends the process: status 0 after the last statement,
    the argument of [exit(n)], 1 for an uncaught exception. *)
Definition exit_status {A : Type} (r : result A) : Z :=
  match r with
  | Ok _ => 0
  | Raise (SystemExit n) => n
  | Raise _ => 1
  end.

Definition run {A : Type} (p : io A) : list event :=
  fst p ++ [EvExit (exit_status (snd p))].

(** Kinds of events. *)
Definition is_connect (e : event) : bool :=
  match e with EvConnect => true | _ => false end.

Definition is_close (e : event) : bool :=
  match e with EvClose => true | _ => false end.

Definition is_render (e : event) : bool :=
  match e with EvDraw | EvShow => true | _ => false end.

End DbConnection.

(** ** monthly_performance(kpis).py *)

Module MonthlyPerformance.
Import DbConnection.

Record row : Type := {
  store_id : Z;
  month : string;
  average_stock_level : pyval;
  stockout_rate : pyval;
  inventory_turnover : pyval;
  sell_through_rate : pyval
}.

Definition traffic_light (val : pyval) (kpi : string) : result string :=
  if kpi =? "average_stock_level" then
    b <- py_gt val (PyNum 100) ;;
    if b then Ok "green" else
    b <- py_ge val (PyNum 70) ;;
    if b then Ok "yellow" else Ok "red"
  else if kpi =? "stockout_rate" then
    b <- py_lt val (PyNum 0.1) ;;
    if b then Ok "green" else
    b <- py_le val (PyNum 0.3) ;;
    if b then Ok "yellow" else Ok "red"
  else if kpi =? "inventory_turnover" then
    b <- py_gt val (PyNum 2.5) ;;
    if b then Ok "green" else
    b <- py_ge val (PyNum 1.5) ;;
    if b then Ok "yellow" else Ok "red"
  else if kpi =? "sell_through_rate" then
    b <- py_gt val (PyNum 70) ;;
    if b then Ok "green" else
    b <- py_ge val (PyNum 50) ;;
    if b then Ok "yellow" else Ok "red"
  else Ok "gray".

Definition kpi_list : list string :=
  ["average_stock_level"; "stockout_rate"; "inventory_turnover"; "sell_through_rate"].

Definition color_map : dict string :=
  [("green", "#4caf50"); ("yellow", "#ffeb3b"); ("red", "#f44336"); ("gray", "#888888")].

(** [sub[kpi]] on one row. *)
Definition kpi_value (r : row) (kpi : string) : result pyval :=
  if kpi =? "average_stock_level" then Ok (average_stock_level r)
  else if kpi =? "stockout_rate" then Ok (stockout_rate r)
  else if kpi =? "inventory_turnover" then Ok (inventory_turnover r)
  else if kpi =? "sell_through_rate" then Ok (sell_through_rate r)
  else Raise KeyError.

Definition stores (df : list row) : list Z := unique Z.eqb (map store_id df).

(** [months = sorted(df['month'].unique())]: Python compares [str] values
    code point by code point. *)
Definition months (df : list row) : list string :=
  sorted String.leb (unique String.eqb (map month df)).

Definition last3months (df : list row) : list string :=
  last_n 3 (sorted String.leb (months df)).

(** The colours of one store's markers for one KPI. *)
Definition colors (sub : list row) (kpi : string) : result (list string) :=
  mapM (fun r =>
          v <- kpi_value r kpi ;;
          c <- traffic_light v kpi ;;
          dict_item color_map c) sub.

Definition dashboard (df : list row) : io unit :=
  emit EvDraw ;;;
  for_each kpi_list (fun kpi =>
    for_each (stores df) (fun store =>
      let sub := filter (fun r => Z.eqb (store_id r) store) df in
      emit EvDraw ;;;
      _ <~ lift (colors sub kpi) ;;
      emit EvDraw)) ;;;
  emit EvShow.

Definition sparklines (df : list row) : io unit :=
  let last3 := last3months df in
  emit EvDraw ;;;
  for_each kpi_list (fun kpi =>
    for_each (stores df) (fun store =>
      let sub := filter (fun r => Z.eqb (store_id r) store
                                  && existsb (String.eqb (month r)) last3) df in
      emit EvDraw)) ;;;
  emit EvShow.

(** The script, top to bottom. *)
Definition script (w : world (list row)) : io unit :=
  conn <~ get_connection w ;;
  match conn with
  | None => emit (EvPrint "Database connection failed.") ;;; raise (SystemExit 1)
  | Some _ =>
      df <~ (emit EvReadSql ;;; lift (read_sql w)) ;;
      emit EvClose ;;;
      dashboard df ;;;
      sparklines df
  end.

Definition main (w : world (list row)) : list event := run (script w).

End MonthlyPerformance.

(** ** Month labels as periods *)

(** [pd.to_datetime(label, format='%Y-%m')] as the region scripts apply it to
    the same kind of label: [%Y] is four digits, [%m] is one or two digits
    naming a month from 1 to 12.  The result is (year, month). *)
Definition digit_of (c : ascii) : option nat :=
  let n := nat_of_ascii c in
  if ((48 <=? n) && (n <=? 57))%nat then Some (n - 48)%nat else None.

Definition parse_year (a b c d : ascii) : option nat :=
  match digit_of a, digit_of b, digit_of c, digit_of d with
  | Some x, Some y, Some z, Some w => Some (1000 * x + 100 * y + 10 * z + w)%nat
  | _, _, _, _ => None
  end.

Definition parse_month (s : string) : option nat :=
  match s with
  | String e EmptyString =>
      match digit_of e with
      | Some x => if (1 <=? x)%nat then Some x else None
      | None => None
      end
  | String e (String f EmptyString) =>
      match digit_of e, digit_of f with
      | Some x, Some y =>
          let m := (10 * x + y)%nat in
          if ((1 <=? m) && (m <=? 12))%nat then Some m else None
      | _, _ => None
      end
  | _ => None
  end.

Definition to_period (s : string) : option (nat * nat) :=
  match s with
  | String a (String b (String c (String d (String h rest)))) =>
      if Ascii.eqb h "-" then
        match parse_year a b c d, parse_month rest with
        | Some y, Some m => Some (y, m)
        | _, _ => None
        end
      else None
  | _ => None
  end.


(** The labels [DATE_FORMAT(d, '%Y-%m')] produces: seven characters, the
    month written with two digits. *)
Definition is_yyyy_mm (s : string) : bool :=
  match to_period s with
  | Some _ => (String.length s =? 7)%nat
  | None => false
  end.


(** ** The ordering the specification asks for *)




(** ** store_vs_product.py *)

Module StoreVsProduct.

Record row : Type := {
  store_id : Z;
  product_id : Z;
  inventory_level : pyval;
  units_ordered : pyval
}.

Definition get_stock_status (r : row) : result string :=
  if py_eq (inventory_level r) (PyNum 0) then Ok "Out of Stock" else
  half <- py_mul (units_ordered r) (PyNum 0.5) ;;
  b <- py_lt (inventory_level r) half ;;
  if b then Ok "Below Reorder" else
  b <- py_lt (inventory_level r) (units_ordered r) ;;
  if b then Ok "Near Reorder" else Ok "Adequate".

Definition status_labels : list string :=
  ["Out of Stock"; "Below Reorder"; "Near Reorder"; "Adequate"].

Definition status_colors : list string :=
  ["#d62728"; "#ff7f0e"; "#ffdf00"; "#2ca02c"].

(** [{label: i for i, label in enumerate(status_labels)}] *)
Definition status_map : dict nat :=
  map (fun p => (snd p, fst p)) (enumerate status_labels).

(** [df.apply(get_stock_status, axis=1)] *)
Definition stock_status (df : list row) : result (list string) :=
  mapM get_stock_status df.

(** [Series.map(status_map)]: NaN for a label that is no key. *)
Definition status_code (labels : list string) : list (option nat) :=
  map (dict_get status_map) labels.

(** [aggfunc="min"] on a group. *)
Definition agg_min (l : list nat) : nat :=
  match l with
  | [] => 0%nat
  | x :: t => fold_right Nat.min x t
  end.

Definition pivot_df (df : list row) : result (frame Z Z nat) :=
  labels <- stock_status df ;;
  let codes := status_code labels in
  Ok (pivot_table Z.eqb Z.leb Z.eqb Z.leb agg_min
        (map (fun x => (product_id (fst x), store_id (fst x), snd x)) (combine df codes))
        None).

End StoreVsProduct.

(** ** storeid_numberofproducts_stock.py *)

Module StoreStock.

(** A row of the query result: one per (store, region, status). *)
Record row : Type := {
  store_id : Z;
  region : string;
  stock_status : string;
  product_count : Z
}.

(** The default [aggfunc] of [pivot_table]. *)
Definition mean (l : list Q) : Q :=
  fold_right Qplus 0 l / inject_Z (Z.of_nat (List.length l)).

(** The index is the pair (store_id, region), ordered component-wise. *)
Definition key_eqb (a b : Z * string) : bool :=
  Z.eqb (fst a) (fst b) && String.eqb (snd a) (snd b).

Definition key_leb (a b : Z * string) : bool :=
  Z.ltb (fst a) (fst b) || (Z.eqb (fst a) (fst b) && String.leb (snd a) (snd b)).

Definition status_order : list string :=
  ["Out of Stock"; "Below Reorder"; "Near Reorder"; "Adequate Stock"].

Definition long (df : list row) : long_table (Z * string) string Q :=
  map (fun r => ((store_id r, region r), stock_status r,
                 Some (inject_Z (product_count r)))) df.

(** [for status in status_order: if status not in f.columns: f[status] = 0] *)
Definition ensure_columns (f : frame (Z * string) string Q)
    : frame (Z * string) string Q :=
  fold_left (ensure_column String.eqb (Some 0)) status_order f.

(** [pivot_df] after the loop; [reset_index()] turns the index keys into
    the leading columns 'store_id' and 'region', they stay in [index]
    here. *)
Definition pivot_df (df : list row) : frame (Z * string) string Q :=
  ensure_columns
    (pivot_table key_eqb key_leb String.eqb String.leb mean (long df) (Some 0)).

(** The rows that contribute to the cell of index key [k] and column [c]. *)
Definition contributing (df : list row) (k : Z * string) (c : string) : list row :=
  filter (fun r => key_eqb (store_id r, region r) k && String.eqb (stock_status r) c) df.

End StoreStock.

(** ** Sorting with a comparison that can raise *)

Section SortedRaising.
Context {A : Type}.
(** [a < b] *)
Variable lt : A -> A -> result bool.

(** [sorted(l)] compares with [<]: an element goes behind those that are
    less than it. *)
Fixpoint insert_raising (x : A) (l : list A) : result (list A) :=
  match l with
  | [] => Ok [x]
  | y :: t =>
      b <- lt y x ;;
      if b then (t' <- insert_raising x t ;; Ok (y :: t'))
      else Ok (x :: y :: t)
  end.

Fixpoint sorted_raising (l : list A) : result (list A) :=
  match l with
  | [] => Ok []
  | x :: t =>
      t' <- sorted_raising t ;;
      insert_raising x t'
  end.
End SortedRaising.

(** ** monthly_performance(kpis).py on the rows as the query gives them *)

(** The same script on rows whose store_id and month can be NULL (a
    snapshot without store or without date): [None] in both columns. *)
Module MonthlyRun.
Import DbConnection.

Record row : Type := {
  store_id : option Z;
  month : option string;
  average_stock_level : pyval;
  stockout_rate : pyval;
  inventory_turnover : pyval;
  sell_through_rate : pyval
}.

(** [sub[kpi]] on one row. *)
Definition kpi_value (r : row) (kpi : string) : result pyval :=
  if kpi =? "average_stock_level" then Ok (average_stock_level r)
  else if kpi =? "stockout_rate" then Ok (stockout_rate r)
  else if kpi =? "inventory_turnover" then Ok (inventory_turnover r)
  else if kpi =? "sell_through_rate" then Ok (sell_through_rate r)
  else Raise KeyError.

(** Equality of two cells as [unique()] sees it: a missing value is one
    value. *)
Definition id_eqb (a b : option Z) : bool :=
  match a, b with
  | Some x, Some y => Z.eqb x y
  | None, None => true
  | _, _ => false
  end.

Definition label_eqb (a b : option string) : bool :=
  match a, b with
  | Some x, Some y => String.eqb x y
  | None, None => true
  | _, _ => false
  end.

(** [a < b] on month labels: two strings compare, None compares with
    nothing. *)
Definition label_lt (a b : option string) : result bool :=
  match a, b with
  | Some x, Some y => Ok (String.ltb x y)
  | _, _ => Raise TypeError
  end.

Definition stores (df : list row) : list (option Z) :=
  unique id_eqb (map store_id df).

(** [months = sorted(df['month'].unique())] *)
Definition months (df : list row) : result (list (option string)) :=
  sorted_raising label_lt (unique label_eqb (map month df)).

(** [last3months = sorted(months)[-3:]] *)
Definition last3months (months : list (option string))
    : result (list (option string)) :=
  l <- sorted_raising label_lt months ;;
  Ok (last_n 3 l).

(** [df['store_id'] == store] on one row: a missing store id equals
    nothing, itself included. *)
Definition of_store (store : option Z) (r : row) : bool :=
  match store, store_id r with
  | Some a, Some b => Z.eqb b a
  | _, _ => false
  end.

Definition colors (sub : list row) (kpi : string) : result (list string) :=
  mapM (fun r =>
          v <- kpi_value r kpi ;;
          c <- MonthlyPerformance.traffic_light v kpi ;;
          dict_item MonthlyPerformance.color_map c) sub.

Definition dashboard (df : list row) : io unit :=
  emit EvDraw ;;;
  for_each MonthlyPerformance.kpi_list (fun kpi =>
    for_each (stores df) (fun store =>
      let sub := filter (of_store store) df in
      emit EvDraw ;;;
      _ <~ lift (colors sub kpi) ;;
      emit EvDraw)) ;;;
  emit EvShow.

Definition sparklines (df : list row) (months : list (option string)) : io unit :=
  emit EvDraw ;;;
  last3 <~ lift (last3months months) ;;
  for_each MonthlyPerformance.kpi_list (fun kpi =>
    for_each (stores df) (fun store =>
      let sub := filter (fun r => of_store store r
                                  && existsb (label_eqb (month r)) last3) df in
      emit EvDraw)) ;;;
  emit EvShow.

(** The script, top to bottom. *)
Definition script (w : world (list row)) : io unit :=
  conn <~ get_connection w ;;
  match conn with
  | None => emit (EvPrint "Database connection failed.") ;;; raise (SystemExit 1)
  | Some _ =>
      df <~ (emit EvReadSql ;;; lift (read_sql w)) ;;
      emit EvClose ;;;
      ms <~ lift (months df) ;;
      dashboard df ;;;
      sparklines df ms
  end.

Definition main (w : world (list row)) : list event := run (script w).

End MonthlyRun.

(** ** storeid_numberofproducts_stock.py: the query's status and the bars *)

Module StockQuery.

(** The CASE expression of the query on [inv.inventory_level]; [None] is
    SQL NULL, for which no WHEN condition is true. *)
Definition stock_status_case (inventory_level : option Q) : string :=
  match inventory_level with
  | None => "Adequate Stock"
  | Some q =>
      if Qeq_bool q 0 then "Out of Stock"
      else if Qle_bool q 10 then "Below Reorder"
      else if Qle_bool q 20 then "Near Reorder"
      else "Adequate Stock"
  end.

Definition colors : dict string :=
  [("Out of Stock", "#d73027"); ("Below Reorder", "#fc8d59");
   ("Near Reorder", "#fee08b"); ("Adequate Stock", "#91cf60")].

End StockQuery.

(** ** SellThroughRate_Region_plot.py and
       Monthly_STR_UnitsSold_Inventory_plot.py: cleaning the labels *)

Module RegionPlots.

(** A character of a [str] is taken as a code point below 256. *)

(** [s.replace('\x00', '')] *)
Fixpoint remove_nul (s : string) : string :=
  match s with
  | EmptyString => EmptyString
  | String c t =>
      if Ascii.eqb c zero then remove_nul t else String c (remove_nul t)
  end.

(** [c.isspace()] *)
Definition is_space (c : ascii) : bool :=
  let n := nat_of_ascii c in
  (((9 <=? n) && (n <=? 13)) || ((28 <=? n) && (n <=? 32))
   || (n =? 133) || (n =? 160))%nat.

(** [s.lstrip()] *)
Fixpoint lstrip (s : string) : string :=
  match s with
  | EmptyString => EmptyString
  | String c t => if is_space c then lstrip t else s
  end.

(** [s.rstrip()] *)
Fixpoint rstrip (s : string) : string :=
  match s with
  | EmptyString => EmptyString
  | String c t =>
      match rstrip t with
      | EmptyString => if is_space c then EmptyString else String c EmptyString
      | t' => String c t'
      end
  end.

(** [s.strip()] *)
Definition strip (s : string) : string := rstrip (lstrip s).

(** [astype(str)] on a cell that holds a string or None. *)
Definition astype_str (v : option string) : string :=
  match v with
  | Some s => s
  | None => "None"
  end.

(** [col.astype(str).str.replace('\x00', '', regex=False).str.strip()] *)
Definition clean (v : option string) : string :=
  strip (remove_nul (astype_str v)).

(** A row of the query result. *)
Record row : Type := {
  Month : option string;
  Region : option string;
  Total_Units_Sold : pyval;
  Weighted_Avg_Inventory : pyval;
  Sell_Through_Rate_Percent : pyval
}.

(** A row after cleaning: the region as text, the month as a timestamp. *)
Record cleaned : Type := {
  c_Month : nat * nat;
  c_Region : string;
  c_Total_Units_Sold : pyval;
  c_Weighted_Avg_Inventory : pyval;
  c_Sell_Through_Rate_Percent : pyval
}.

Section Cleaning.
(** The months a timestamp can hold: the range depends on the resolution
    of the pandas at hand. *)
Variable in_bounds : nat * nat -> bool.

(** [pd.to_datetime(s, format='%Y-%m', errors='coerce')]; [None] is NaT. *)
Definition to_datetime (s : string) : option (nat * nat) :=
  match to_period s with
  | Some p => if in_bounds p then Some p else None
  | None => None
  end.

(** The cleaning of one row; [None] when [dropna(subset=['Month'])] drops
    it. *)
Definition clean_row (r : row) : option cleaned :=
  match to_datetime (clean (Month r)) with
  | Some p =>
      Some {| c_Month := p;
              c_Region := clean (Region r);
              c_Total_Units_Sold := Total_Units_Sold r;
              c_Weighted_Avg_Inventory := Weighted_Avg_Inventory r;
              c_Sell_Through_Rate_Percent := Sell_Through_Rate_Percent r |}
  | None => None
  end.

(** The data frame after the cleaning block. *)
Definition clean_df (df : list row) : list cleaned :=
  flat_map (fun r => match clean_row r with
                     | Some c => [c]
                     | None => []
                     end) df.
End Cleaning.

End RegionPlots.

(** ** DataFrame.pivot and fillna *)

Section Pivot.
Context {R C V : Type}.
Variables (R_eqb R_leb : R -> R -> bool) (C_eqb C_leb : C -> C -> bool).

Fixpoint has_duplicate (keys : list (R * C)) : bool :=
  match keys with
  | [] => false
  | k :: t =>
      existsb (fun k' => R_eqb (fst k) (fst k') && C_eqb (snd k) (snd k')) t
      || has_duplicate t
  end.

(** The value of the first row with the two keys, NaN without one. *)
Definition lookup_cell (df : long_table R C V) (r : R) (c : C) : option V :=
  match find (fun x => R_eqb (fst (fst x)) r && C_eqb (snd (fst x)) c) df with
  | Some x => snd x
  | None => None
  end.

(** [df.pivot(index=.., columns=.., values=..)]: a reshape without
    aggregation; [None] stands for its ValueError ("Index contains
    duplicate entries, cannot reshape") when two rows share both keys. *)
Definition pivot (df : long_table R C V) : option (frame R C V) :=
  if has_duplicate (map fst df) then None
  else
    let idx := sorted R_leb (unique R_eqb (map (fun x => fst (fst x)) df)) in
    let cols := sorted C_leb (unique C_eqb (map (fun x => snd (fst x)) df)) in
    Some {| index := idx;
            columns := map (fun c => (c, map (fun r => lookup_cell df r c) idx)) cols |}.

(** [f.fillna(v)] *)
Definition fillna (v : V) (f : frame R C V) : frame R C V :=
  {| index := index f;
     columns := map (fun col =>
                       (fst col,
                        map (fun cell => match cell with
                                         | Some x => Some x
                                         | None => Some v
                                         end) (snd col)))
                    (columns f) |}.
End Pivot.

(** ** storeid_numberofproducts_stock.py: the heatmap of stock issues *)

Module StockHeatmap.

(** [f[c]] *)
Definition column (f : frame (Z * string) string Q) (c : string)
    : result (list (option Q)) :=
  match find (fun col => String.eqb c (fst col)) (columns f) with
  | Some col => Ok (snd col)
  | None => Raise KeyError
  end.

(** [a + b] on two columns of one frame; NaN where either is NaN. *)
Definition series_add (a b : list (option Q)) : list (option Q) :=
  map (fun p => match p with
                | (Some x, Some y) => Some (x + y)
                | _ => None
                end) (combine a b).

(** [heatmap_df['Total_Issues']] *)
Definition total_issues (f : frame (Z * string) string Q)
    : result (list (option Q)) :=
  a <- column f "Out of Stock" ;;
  b <- column f "Below Reorder" ;;
  c <- column f "Near Reorder" ;;
  Ok (series_add (series_add a b) c).

(** The rows that are reshaped: (region, store_id, Total_Issues). *)
Definition issue_rows (f : frame (Z * string) string Q) (totals : list (option Q))
    : long_table string Z Q :=
  map (fun x => (snd (fst x), fst (fst x), snd x)) (combine (index f) totals).

(** [pivot_heat], from the table of the stacked bars. *)
Definition pivot_heat (f : frame (Z * string) string Q)
    : result (option (frame string Z Q)) :=
  totals <- total_issues f ;;
  Ok (option_map (fillna 0)
        (pivot String.eqb String.leb Z.eqb Z.leb (issue_rows f totals))).

End StockHeatmap.

(** ** The threshold table of the specification *)

(** The two boundaries of the middle band of a KPI, and whether a larger
    value is the better one. *)
Record thresholds : Type := {
  lower : Q;
  upper : Q;
  higher_is_better : bool
}.

Definition threshold_table (kpi : string) : option thresholds :=
  if kpi =? "average_stock_level" then
    Some {| lower := 70; upper := 100; higher_is_better := true |}
  else if kpi =? "stockout_rate" then
    Some {| lower := 0.10; upper := 0.30; higher_is_better := false |}
  else if kpi =? "inventory_turnover" then
    Some {| lower := 1.5; upper := 2.5; higher_is_better := true |}
  else if kpi =? "sell_through_rate" then
    Some {| lower := 50; upper := 70; higher_is_better := true |}
  else None.

(** The interval of a label: the middle band is closed, the outer two are
    the open rays on either side of it. *)
Definition in_band (t : thresholds) (label : string) (q : Q) : Prop :=
  if label =? "yellow" then lower t <= q /\ q <= upper t
  else if label =? "green" then
    (if higher_is_better t then upper t < q else q < lower t)
  else if label =? "red" then
    (if higher_is_better t then q < lower t else upper t < q)
  else False.

(** green > yellow > red *)
Definition rank (label : string) : nat :=
  if label =? "green" then 2
  else if label =? "yellow" then 1
  else 0.

(** The status code of a row of store_vs_product.py: the position of its
    label in [status_labels], read through [status_map]. *)
Definition code_of (r : StoreVsProduct.row) (k : nat) : Prop :=
  exists label,
    StoreVsProduct.get_stock_status r = Ok label /\
    dict_get StoreVsProduct.status_map label = Some k /\
    nth_error StoreVsProduct.status_labels k = Some label.

(** * Properties *)

(** ** Comparisons *)

Lemma Qltb_spec (x y : Q) : reflect (x < y) (Qltb x y).
Proof.
  unfold Qltb. destruct (Qle_bool y x) eqn:E; constructor.
  - apply Qle_bool_iff in E. intro H. lra.
  - destruct (Qlt_le_dec x y) as [H | H]; [exact H |].
    apply Qle_bool_iff in H. congruence.
Qed.

Lemma Qleb_spec (x y : Q) : reflect (x <= y) (Qle_bool x y).
Proof.
  destruct (Qle_bool x y) eqn:E; constructor.
  - now apply Qle_bool_iff.
  - intro H. apply Qle_bool_iff in H. congruence.
Qed.

Ltac cmp_cases :=
  repeat match goal with
    | |- context [Qltb ?a ?b] => destruct (Qltb_spec a b); simpl
    | |- context [Qle_bool ?a ?b] => destruct (Qleb_spec a b); simpl
    end.

Ltac each_kpi H :=
  unfold MonthlyPerformance.kpi_list in H; simpl in H;
  destruct H as [H | [H | [H | [H | []]]]]; subst.

(** ** The traffic light *)

Import MonthlyPerformance.

Example traffic_light_120 :
  traffic_light (PyNum 120) "average_stock_level" = Ok "green".
Proof. reflexivity. Qed.

Example traffic_light_60 :
  traffic_light (PyNum 60) "average_stock_level" = Ok "red".
Proof. reflexivity. Qed.

Lemma threshold_table_defined (kpi : string) :
  In kpi kpi_list -> exists t, threshold_table kpi = Some t.
Proof. intro H. each_kpi H; eexists; reflexivity. Qed.

Lemma traffic_light_band (kpi : string) (q : Q) (t : thresholds) (label : string) :
  In kpi kpi_list ->
  threshold_table kpi = Some t ->
  In label ["green"; "yellow"; "red"] ->
  traffic_light (PyNum q) kpi = Ok label <-> in_band t label q.
Proof.
  intros Hk Ht Hl. simpl in Hl.
  each_kpi Hk; vm_compute in Ht; injection Ht as <-;
    destruct Hl as [<- | [<- | [<- | []]]];
    unfold traffic_light, in_band, py_gt, py_ge, py_lt, py_le; simpl;
    cmp_cases; split; intro H; try discriminate H; try reflexivity;
    try lra.
Qed.

Lemma traffic_light_total (kpi : string) (q : Q) :
  In kpi kpi_list ->
  exists label, In label ["green"; "yellow"; "red"] /\
                traffic_light (PyNum q) kpi = Ok label.
Proof.
  intro Hk.
  each_kpi Hk; unfold traffic_light, py_gt, py_ge, py_lt, py_le; simpl;
    cmp_cases; eexists; (split; [| reflexivity]); simpl; tauto.
Qed.

(** C1: for each of the four recognized KPIs and every real value, the
    classifier returns exactly one of green, yellow, red; the label it
    returns is the one whose interval in the threshold table holds the
    value, and exactly one of the three intervals holds it (no gap, no
    overlap). *)
Theorem traffic_light_partition (kpi : string) (q : Q) :
  In kpi kpi_list ->
  exists t, threshold_table kpi = Some t /\
    (exists! label, In label ["green"; "yellow"; "red"] /\
                    traffic_light (PyNum q) kpi = Ok label) /\
    (forall label, In label ["green"; "yellow"; "red"] ->
                   (traffic_light (PyNum q) kpi = Ok label <-> in_band t label q)) /\
    (exists! label, In label ["green"; "yellow"; "red"] /\ in_band t label q).
Proof.
  intro Hk.
  destruct (threshold_table_defined kpi Hk) as [t Ht].
  destruct (traffic_light_total kpi q Hk) as [l [Hl Htl]].
  exists t. split; [exact Ht |]. split; [| split].
  - exists l. split; [now split |].
    intros l' [_ Hl']. congruence.
  - intros label Hlabel. now apply traffic_light_band.
  - exists l. split.
    + split; [exact Hl |]. now apply (traffic_light_band kpi q t l Hk Ht Hl).
    + intros l' [Hin Hb].
      apply (traffic_light_band kpi q t l' Hk Ht Hin) in Hb. congruence.
Qed.

Lemma traffic_light_partition_witness :
  exists t, threshold_table "sell_through_rate" = Some t /\
    (exists! label, In label ["green"; "yellow"; "red"] /\
                    traffic_light (PyNum 60) "sell_through_rate" = Ok label) /\
    (forall label, In label ["green"; "yellow"; "red"] ->
                   (traffic_light (PyNum 60) "sell_through_rate" = Ok label
                    <-> in_band t label 60)) /\
    (exists! label, In label ["green"; "yellow"; "red"] /\ in_band t label 60).
Proof.
  apply (traffic_light_partition "sell_through_rate" 60).
  simpl. tauto.
Defined.

(** C2: the boundary values fall in the middle category: 70 for
    average_stock_level, 0.30 for stockout_rate and 50 for
    sell_through_rate are yellow, not red. *)
Theorem traffic_light_boundaries :
  traffic_light (PyNum 70) "average_stock_level" = Ok "yellow" /\
  traffic_light (PyNum 0.30) "stockout_rate" = Ok "yellow" /\
  traffic_light (PyNum 50) "sell_through_rate" = Ok "yellow" /\
  Ok "yellow" <> Ok (A := string) "red".
Proof. repeat split; try reflexivity. discriminate. Qed.

Lemma kpi_list_dec (kpi : string) :
  existsb (String.eqb kpi) kpi_list = true <-> In kpi kpi_list.
Proof.
  rewrite existsb_exists. split.
  - intros [x [Hin Heq]]. apply String.eqb_eq in Heq. now subst.
  - intro H. exists kpi. split; [exact H | apply String.eqb_refl].
Qed.

Lemma traffic_light_unrecognized (val : pyval) (kpi : string) :
  ~ In kpi kpi_list -> traffic_light val kpi = Ok "gray".
Proof.
  intro H. unfold traffic_light.
  repeat match goal with
    | |- context [String.eqb kpi ?s] =>
        destruct (String.eqb_spec kpi s) as [-> | _];
        [exfalso; apply H; simpl; tauto |]
    end.
  reflexivity.
Qed.

Lemma traffic_light_recognized (val : pyval) (kpi : string) :
  In kpi kpi_list -> traffic_light val kpi <> Ok "gray".
Proof.
  intro Hk.
  each_kpi Hk; destruct val as [q | |];
    unfold traffic_light, py_gt, py_ge, py_lt, py_le; simpl;
    cmp_cases; discriminate.
Qed.

(** C3, as the code has it: the classifier returns gray exactly when the
    KPI identifier is not one of the four recognized ones, whatever the
    value (a number, NaN or None), and it does not fail then; a NaN value
    of a recognized KPI is not gray: every comparison with it is false, so
    it takes the last branch, red. *)
Theorem traffic_light_gray (val : pyval) (kpi : string) :
  (traffic_light val kpi = Ok "gray" <-> ~ In kpi kpi_list) /\
  traffic_light PyNaN kpi =
    Ok (if existsb (String.eqb kpi) kpi_list then "red" else "gray").
Proof.
  split.
  - split.
    + intros H Hk. now apply (traffic_light_recognized val kpi Hk).
    + apply traffic_light_unrecognized.
  - destruct (existsb (String.eqb kpi) kpi_list) eqn:E.
    + apply kpi_list_dec in E. each_kpi E; reflexivity.
    + apply traffic_light_unrecognized. intro H.
      apply kpi_list_dec in H. congruence.
Qed.

(** C3 as stated fails: NaN for a recognized KPI is classified red. *)
Lemma traffic_light_nan_is_red :
  In "stockout_rate" kpi_list /\
  traffic_light PyNaN "stockout_rate" = Ok "red" /\
  traffic_light PyNaN "stockout_rate" <> Ok "gray".
Proof. split; [simpl; tauto |]. split; [reflexivity | discriminate]. Qed.

(** C10: the classification is monotone in the value: for a recognized KPI
    other than stockout_rate a larger value is classified no worse, for
    stockout_rate a larger value is classified no better. *)
Theorem traffic_light_monotone (kpi : string) (v1 v2 : Q) :
  In kpi kpi_list ->
  v1 <= v2 ->
  exists c1 c2,
    traffic_light (PyNum v1) kpi = Ok c1 /\
    traffic_light (PyNum v2) kpi = Ok c2 /\
    if kpi =? "stockout_rate" then (rank c2 <= rank c1)%nat
    else (rank c1 <= rank c2)%nat.
Proof.
  intros Hk Hle.
  each_kpi Hk; unfold traffic_light, py_gt, py_ge, py_lt, py_le; simpl;
    cmp_cases; do 2 eexists; (split; [reflexivity |]); (split; [reflexivity |]);
    unfold rank; simpl; first [lia | exfalso; lra].
Qed.

Lemma traffic_light_monotone_witness :
  exists c1 c2,
    traffic_light (PyNum 0.05) "stockout_rate" = Ok c1 /\
    traffic_light (PyNum 0.2) "stockout_rate" = Ok c2 /\
    (rank c2 <= rank c1)%nat.
Proof.
  apply (traffic_light_monotone "stockout_rate" 0.05 0.2).
  - simpl. tauto.
  - unfold Qle. simpl. lia.
Defined.

(** ** The ratio-based stock status *)

Import StoreVsProduct.

Example get_stock_status_below :
  get_stock_status {| store_id := 1; product_id := 7;
                      inventory_level := PyNum 4; units_ordered := PyNum 10 |}
  = Ok "Below Reorder".
Proof. reflexivity. Qed.

Example get_stock_status_near :
  get_stock_status {| store_id := 1; product_id := 7;
                      inventory_level := PyNum 5; units_ordered := PyNum 10 |}
  = Ok "Near Reorder".
Proof. reflexivity. Qed.

(** C4: a row whose inventory_level is 0 is "Out of Stock", whatever its
    units_ordered is (0, any other number, NaN or None). *)
Theorem get_stock_status_zero_inventory (r : row) (q : Q) :
  inventory_level r = PyNum q ->
  q == 0 ->
  get_stock_status r = Ok "Out of Stock".
Proof.
  intros Hi Hq. unfold get_stock_status. rewrite Hi. simpl.
  apply Qeq_bool_iff in Hq. now rewrite Hq.
Qed.

Lemma get_stock_status_zero_inventory_witness :
  get_stock_status {| store_id := 2; product_id := 11;
                      inventory_level := PyNum 0; units_ordered := PyNum 0 |}
  = Ok "Out of Stock".
Proof.
  apply (get_stock_status_zero_inventory _ 0); reflexivity.
Defined.

(** C5: a row with units_ordered 0 and a positive inventory_level raises
    nothing and is "Adequate". *)
Theorem get_stock_status_nothing_ordered (r : row) (q u : Q) :
  inventory_level r = PyNum q ->
  units_ordered r = PyNum u ->
  0 < q ->
  u == 0 ->
  get_stock_status r = Ok "Adequate".
Proof.
  intros Hi Hu Hq Hz. unfold get_stock_status. rewrite Hi, Hu. simpl.
  destruct (Qeq_bool q 0) eqn:E.
  - apply Qeq_bool_iff in E. lra.
  - simpl. cmp_cases; try reflexivity; exfalso; nra.
Qed.

Lemma get_stock_status_nothing_ordered_witness :
  get_stock_status {| store_id := 2; product_id := 11;
                      inventory_level := PyNum 35; units_ordered := PyNum 0 |}
  = Ok "Adequate".
Proof.
  apply (get_stock_status_nothing_ordered _ 35 0); try reflexivity.
Defined.

(** ** Lists: unique, sorted, get_loc *)

Section ListFacts.
Context {A : Type}.
Variable eqb : A -> A -> bool.
Hypothesis eqb_eq : forall a b, eqb a b = true <-> a = b.

Lemma existsb_eqb_In (x : A) (l : list A) :
  existsb (eqb x) l = true <-> In x l.
Proof.
  rewrite existsb_exists. split.
  - intros [y [Hin Heq]]. apply eqb_eq in Heq. now subst.
  - intro H. exists x. split; [exact H | now apply eqb_eq].
Qed.

Lemma In_unique_from (x : A) (seen l : list A) :
  In x (unique_from eqb seen l) <-> In x l /\ ~ In x seen.
Proof.
  revert seen. induction l as [| y t IH]; intro seen; simpl.
  - tauto.
  - destruct (existsb (eqb y) seen) eqn:E.
    + apply existsb_eqb_In in E. rewrite IH. split.
      * tauto.
      * intros [[-> | H] Hn]; tauto.
    + assert (Hy : ~ In y seen).
      { intro H. apply existsb_eqb_In in H. congruence. }
      simpl. rewrite IH. simpl. split.
      * intros [-> | [H Hn]]; [tauto |]. split; [tauto |]. intro; apply Hn; tauto.
      * intros [[-> | H] Hn]; [tauto |].
        destruct (eqb y x) eqn:Eyx.
        -- apply eqb_eq in Eyx. tauto.
        -- right. split; [exact H |]. intros [-> | Hs]; [| tauto].
           assert (eqb x x = true) by now apply eqb_eq. congruence.
Qed.

Lemma In_unique (x : A) (l : list A) : In x (unique eqb l) <-> In x l.
Proof. unfold unique. rewrite In_unique_from. simpl. tauto. Qed.

Lemma get_loc_In (x : A) (l : list A) :
  In x l -> exists i, get_loc eqb x l = Some i /\ nth_error l i = Some x.
Proof.
  induction l as [| y t IH]; simpl; [tauto |].
  intro H. destruct (eqb x y) eqn:E.
  - apply eqb_eq in E. subst. now exists 0%nat.
  - destruct H as [-> | H].
    + assert (eqb x x = true) by now apply eqb_eq. congruence.
    + destruct (IH H) as [i [Hi Hn]]. exists (S i). rewrite Hi. now split.
Qed.
End ListFacts.

Section SortedFacts.
Context {A : Type}.
Variable leb : A -> A -> bool.

Lemma In_insert_sorted (x y : A) (l : list A) :
  In x (insert_sorted leb y l) <-> x = y \/ In x l.
Proof.
  induction l as [| z t IH]; simpl.
  - split; intros [H | H]; auto.
  - destruct (leb y z); simpl; [| rewrite IH]; split; intuition auto.
Qed.

Lemma In_sorted (x : A) (l : list A) : In x (sorted leb l) <-> In x l.
Proof.
  induction l as [| y t IH]; simpl; [tauto |].
  rewrite In_insert_sorted, IH. split; intuition auto.
Qed.
End SortedFacts.

(** ** Cells of a pivot table *)

Section PivotFacts.
Context {R C V : Type}.
Variables (R_eqb R_leb : R -> R -> bool) (C_eqb C_leb : C -> C -> bool).
Variable aggfunc : list V -> V.
Hypothesis R_eqb_eq : forall a b, R_eqb a b = true <-> a = b.
Hypothesis C_eqb_eq : forall a b, C_eqb a b = true <-> a = b.

Lemma find_column_map (g : C -> list (option V)) (c : C) (cols : list C) :
  In c cols ->
  find (fun col => C_eqb c (fst col)) (map (fun c' => (c', g c')) cols)
  = Some (c, g c).
Proof.
  induction cols as [| d t IH]; simpl; [tauto |].
  intro H. destruct (C_eqb c d) eqn:E.
  - apply C_eqb_eq in E. now subst.
  - destruct H as [-> | H]; [| now apply IH].
    assert (C_eqb c c = true) by now apply C_eqb_eq. congruence.
Qed.

Lemma find_column_none (c : C) (cols : list (C * list (option V))) :
  ~ In c (map fst cols) ->
  find (fun col => C_eqb c (fst col)) cols = None.
Proof.
  induction cols as [| d t IH]; simpl; [reflexivity |].
  intro H. destruct (C_eqb c (fst d)) eqn:E.
  - apply C_eqb_eq in E. subst. tauto.
  - apply IH. tauto.
Qed.

Lemma index_pivot_table (df : long_table R C V) (fill : option V) (r : R) :
  In r (index (pivot_table R_eqb R_leb C_eqb C_leb aggfunc df fill))
  <-> exists c v, In (r, c, v) (observed df).
Proof.
  simpl. rewrite In_sorted, (In_unique R_eqb R_eqb_eq), in_map_iff. split.
  - intros [[[r' c] v] [<- H]]. now exists c, v.
  - intros [c [v H]]. now exists (r, c, v).
Qed.

Lemma columns_pivot_table (df : long_table R C V) (fill : option V) (c : C) :
  In c (map fst (columns (pivot_table R_eqb R_leb C_eqb C_leb aggfunc df fill)))
  <-> exists r v, In (r, c, v) (observed df).
Proof.
  simpl. rewrite map_map. simpl. rewrite map_id.
  rewrite In_sorted, (In_unique C_eqb C_eqb_eq), in_map_iff. split.
  - intros [[[r c'] v] [<- H]]. now exists r, v.
  - intros [r [v H]]. now exists (r, c, v).
Qed.

(** A cell of the dense table, read by its two labels. *)
Lemma loc_pivot_table (df : long_table R C V) (fill : option V) (r : R) (c : C) :
  let f := pivot_table R_eqb R_leb C_eqb C_leb aggfunc df fill in
  In r (index f) ->
  In c (map fst (columns f)) ->
  loc R_eqb C_eqb f r c = Ok (pivot_cell R_eqb C_eqb aggfunc (observed df) fill r c).
Proof.
  intros f Hr Hc. unfold loc.
  assert (Hc' : In c (sorted C_leb (unique C_eqb
                        (map (fun x => snd (fst x)) (observed df))))).
  { revert Hc. subst f. simpl. rewrite map_map. simpl. now rewrite map_id. }
  subst f. simpl in *.
  rewrite (find_column_map _ c _ Hc').
  destruct (get_loc_In R_eqb R_eqb_eq r _ Hr) as [i [Hi Hn]].
  rewrite Hi. simpl. rewrite nth_error_map, Hn. reflexivity.
Qed.

Lemma In_group (obs : list (R * C * V)) (r : R) (c : C) (v : V) :
  In v (group R_eqb C_eqb obs r c) <-> In (r, c, v) obs.
Proof.
  unfold group. rewrite in_map_iff. split.
  - intros [[[r' c'] v'] [Hv Hin]]. simpl in Hv. subst v'.
    apply filter_In in Hin. destruct Hin as [Hin Hk]. simpl in Hk.
    apply andb_true_iff in Hk. destruct Hk as [Hr Hc].
    apply R_eqb_eq in Hr. apply C_eqb_eq in Hc. now subst.
  - intro H. exists (r, c, v). split; [reflexivity |].
    apply filter_In. split; [exact H |]. simpl.
    apply andb_true_iff. split; [now apply R_eqb_eq | now apply C_eqb_eq].
Qed.
End PivotFacts.

(** ** The status heatmap: min over status codes *)

Lemma mapM_Forall2 {A B : Type} (f : A -> result B) (l : list A) (ys : list B) :
  mapM f l = Ok ys -> Forall2 (fun x y => f x = Ok y) l ys.
Proof.
  revert ys. induction l as [| x t IH]; simpl; intros ys H.
  - injection H as <-. constructor.
  - destruct (f x) as [y |] eqn:Ef; simpl in H; [| discriminate].
    destruct (mapM f t) as [ys' |]; simpl in H; [| discriminate].
    injection H as <-. constructor; auto.
Qed.

Lemma get_stock_status_label (r : row) (label : string) :
  get_stock_status r = Ok label -> In label status_labels.
Proof.
  unfold get_stock_status.
  destruct (py_eq (inventory_level r) (PyNum 0)).
  - intro H. injection H as <-. simpl. tauto.
  - destruct (py_mul (units_ordered r) (PyNum 0.5)) as [h |]; simpl; [| discriminate].
    destruct (py_lt (inventory_level r) h) as [[|] |]; simpl; try discriminate.
    + intro H. injection H as <-. simpl. tauto.
    + destruct (py_lt (inventory_level r) (units_ordered r)) as [[|] |]; simpl;
        try discriminate; intro H; injection H as <-; simpl; tauto.
Qed.

Lemma status_map_label (label : string) :
  In label status_labels ->
  exists k, dict_get status_map label = Some k /\
            nth_error status_labels k = Some label.
Proof.
  simpl. intros [<- | [<- | [<- | [<- | []]]]];
    eexists; split; reflexivity.
Qed.

Lemma agg_min_spec (x : nat) (t : list nat) :
  In (agg_min (x :: t)) (x :: t) /\
  forall y, In y (x :: t) -> (agg_min (x :: t) <= y)%nat.
Proof.
  simpl. induction t as [| z t IH]; simpl.
  - split; [tauto |]. intros y [<- | []]. lia.
  - destruct IH as [Hin Hle]. split.
    + destruct (Nat.min_spec z (fold_right Nat.min x t)) as [[_ ->] | [_ ->]];
        tauto.
    + intros y [Hy | [Hy | H]].
      * specialize (Hle y (or_introl Hy)). lia.
      * lia.
      * specialize (Hle y (or_intror H)). lia.
Qed.

Lemma code_of_defined (r : row) (label : string) :
  get_stock_status r = Ok label -> exists k, code_of r k.
Proof.
  intro H.
  destruct (status_map_label label (get_stock_status_label r label H)) as [k [Hk Hn]].
  exists k, label. auto.
Qed.

Lemma code_of_unique (r : row) (k k' : nat) : code_of r k -> code_of r k' -> k = k'.
Proof. intros [l [H1 [H2 _]]] [l' [H1' [H2' _]]]. congruence. Qed.

Lemma In_observed_codes (df : list row) (labels : list string) (p s : Z) (k : nat) :
  Forall2 (fun r l => get_stock_status r = Ok l) df labels ->
  In (p, s, k)
     (observed (map (fun x => (product_id (fst x), store_id (fst x), snd x))
                    (combine df (status_code labels))))
  <-> exists r, In r df /\ product_id r = p /\ store_id r = s /\ code_of r k.
Proof.
  unfold observed, status_code.
  induction 1 as [| r l df labels Hr Hrest IH]; cbn [map combine flat_map fst snd].
  - simpl. split; [tauto | intros [r [[] _]]].
  - destruct (code_of_defined r l Hr) as [k0 Hk0].
    assert (Hget : dict_get status_map l = Some k0).
    { destruct Hk0 as [l' [H1 [H2 _]]]. congruence. }
    rewrite Hget, in_app_iff, IH. cbn [In]. split.
    + intros [[Heq | []] | [r' [Hin Hkey]]].
      * injection Heq as <- <- <-. exists r. tauto.
      * exists r'. tauto.
    + intros [r' [[<- | Hin] [Hp [Hs Hc]]]].
      * left. left. rewrite (code_of_unique _ _ _ Hc Hk0). now subst.
      * right. exists r'. tauto.
Qed.

(** C6: the cell of a (product, store) pair that occurs in the data holds
    the least status code among the rows of that pair, which is the code of
    one of them: the worst status observed for the pair. *)
Theorem pivot_df_worst_status (df : list row) (f : frame Z Z nat) (p s : Z) :
  pivot_df df = Ok f ->
  (exists r, In r df /\ product_id r = p /\ store_id r = s) ->
  exists m,
    loc Z.eqb Z.eqb f p s = Ok (Some m) /\
    (exists r, In r df /\ product_id r = p /\ store_id r = s /\ code_of r m) /\
    (forall r k, In r df -> product_id r = p -> store_id r = s ->
                 code_of r k -> (m <= k)%nat).
Proof.
  intros Hf [r0 [Hin0 [Hp0 Hs0]]]. unfold pivot_df, stock_status in Hf.
  destruct (mapM get_stock_status df) as [labels |] eqn:Em; simpl in Hf;
    [| discriminate].
  injection Hf as <-.
  apply mapM_Forall2 in Em.
  pose proof (fun k => In_observed_codes df labels p s k Em) as Hobs.
  set (lt := map (fun x => (product_id (fst x), store_id (fst x), snd x))
                 (combine df (status_code labels))) in *.
  assert (Hk0 : exists k0, code_of r0 k0).
  { clear Hobs. revert Hin0. induction Em as [| r l df' ls Hr _ IH]; simpl.
    - tauto.
    - intros [<- | H]; [now apply (code_of_defined _ l) | now apply IH]. }
  destruct Hk0 as [k0 Hk0].
  assert (Hin : In (p, s, k0) (observed lt)).
  { apply (proj2 (Hobs k0)). now exists r0. }
  rewrite loc_pivot_table; try apply Z.eqb_eq.
  2: { apply index_pivot_table; [apply Z.eqb_eq | now exists s, k0]. }
  2: { apply columns_pivot_table; [apply Z.eqb_eq | now exists p, k0]. }
  unfold pivot_cell.
  pose proof (In_group Z.eqb Z.eqb Z.eqb_eq Z.eqb_eq (observed lt) p s) as Hg.
  destruct (group Z.eqb Z.eqb (observed lt) p s) as [| x t] eqn:Eg.
  - apply (proj2 (Hg k0)) in Hin. destruct Hin.
  - destruct (agg_min_spec x t) as [Hmin Hle].
    exists (agg_min (x :: t)). split; [reflexivity |]. split.
    + apply (proj1 (Hobs _)), (proj1 (Hg _)), Hmin.
    + intros r k Hr Hp Hs Hc. apply Hle, (proj2 (Hg _)), (proj2 (Hobs _)).
      now exists r.
Qed.

(** Two rows of one (product, store) pair, one "Adequate" (code 3) and one
    "Out of Stock" (code 0): the cell is 0, "Out of Stock". *)
Lemma pivot_df_worst_status_witness :
  let df := [ {| store_id := 1; product_id := 7;
                 inventory_level := PyNum 50; units_ordered := PyNum 10 |};
              {| store_id := 1; product_id := 7;
                 inventory_level := PyNum 0; units_ordered := PyNum 10 |} ] in
  stock_status df = Ok ["Adequate"; "Out of Stock"] /\
  exists f, pivot_df df = Ok f /\
            loc Z.eqb Z.eqb f 7%Z 1%Z = Ok (Some 0%nat) /\
            nth_error status_labels 0 = Some "Out of Stock".
Proof.
  intro df. split; [reflexivity |].
  destruct (pivot_df df) as [f |] eqn:Ef; [| discriminate Ef].
  exists f. split; [reflexivity |]. split; [| reflexivity].
  destruct (pivot_df_worst_status df f 7%Z 1%Z Ef) as [m [Hloc [_ Hle]]].
  - eexists. split; [left; reflexivity | split; reflexivity].
  - assert (Hm : (m <= 0)%nat).
    { apply (Hle {| store_id := 1; product_id := 7;
                    inventory_level := PyNum 0; units_ordered := PyNum 10 |}).
      - right. left. reflexivity.
      - reflexivity.
      - reflexivity.
      - exists "Out of Stock". repeat split; reflexivity. }
    assert (m = 0%nat) as -> by lia. exact Hloc.
Defined.

(** ** Adding a constant column to a frame *)

Section FrameFacts.
Context {R C V : Type}.
Variables (R_eqb : R -> R -> bool) (C_eqb : C -> C -> bool).
Hypothesis R_eqb_eq : forall a b, R_eqb a b = true <-> a = b.
Hypothesis C_eqb_eq : forall a b, C_eqb a b = true <-> a = b.

Lemma has_column_In (f : frame R C V) (c : C) :
  has_column C_eqb f c = true <-> In c (map fst (columns f)).
Proof.
  unfold has_column. rewrite existsb_exists, in_map_iff. split.
  - intros [col [Hin Heq]]. apply C_eqb_eq in Heq. now exists col.
  - intros [col [Heq Hin]]. exists col. split; [exact Hin |]. now apply C_eqb_eq.
Qed.

Lemma find_column_app (c : C) (l1 l2 : list (C * list (option V))) :
  find (fun col => C_eqb c (fst col)) (l1 ++ l2) =
  match find (fun col => C_eqb c (fst col)) l1 with
  | Some col => Some col
  | None => find (fun col => C_eqb c (fst col)) l2
  end.
Proof.
  induction l1 as [| d t IH]; simpl; [reflexivity |].
  now destruct (C_eqb c (fst d)).
Qed.

Lemma find_column_some (f : frame R C V) (c : C) :
  has_column C_eqb f c = true ->
  exists col, find (fun col => C_eqb c (fst col)) (columns f) = Some col.
Proof.
  unfold has_column. induction (columns f) as [| d t IH]; simpl; [discriminate |].
  destruct (C_eqb c (fst d)); simpl; [now exists d | exact IH].
Qed.

Lemma index_ensure (v : option V) (f : frame R C V) (c : C) :
  index (ensure_column C_eqb v f c) = index f.
Proof. unfold ensure_column. now destruct (has_column C_eqb f c). Qed.

Lemma has_column_ensure (v : option V) (f : frame R C V) (c d : C) :
  has_column C_eqb (ensure_column C_eqb v f c) d = has_column C_eqb f d || C_eqb d c.
Proof.
  unfold ensure_column. destruct (has_column C_eqb f c) eqn:E; simpl.
  - destruct (C_eqb d c) eqn:Edc; [| now rewrite orb_false_r].
    apply C_eqb_eq in Edc. subst. now rewrite E.
  - unfold has_column at 1, set_column. simpl. rewrite E.
    rewrite existsb_app. simpl. now rewrite orb_false_r.
Qed.

Lemma loc_ensure_old (v : option V) (f : frame R C V) (c d : C) (r : R) :
  has_column C_eqb f d = true ->
  loc R_eqb C_eqb (ensure_column C_eqb v f c) r d = loc R_eqb C_eqb f r d.
Proof.
  intro Hd. unfold ensure_column. destruct (has_column C_eqb f c) eqn:E; simpl;
    [reflexivity |].
  unfold loc, set_column. simpl. rewrite E, find_column_app.
  destruct (find_column_some f d Hd) as [col ->]. reflexivity.
Qed.

Lemma loc_ensure_new (v : option V) (f : frame R C V) (c : C) (r : R) :
  has_column C_eqb f c = false ->
  In r (index f) ->
  loc R_eqb C_eqb (ensure_column C_eqb v f c) r c = Ok v.
Proof.
  intros Hc Hr. unfold ensure_column. rewrite Hc. simpl.
  unfold loc, set_column. simpl. rewrite Hc, find_column_app.
  rewrite (find_column_none C_eqb C_eqb C_eqb_eq).
  2: { intro H. apply has_column_In in H. congruence. }
  simpl. assert (Hcc : C_eqb c c = true) by now apply C_eqb_eq.
  rewrite Hcc. destruct (get_loc_In R_eqb R_eqb_eq r _ Hr) as [i [Hi Hn]].
  rewrite Hi. simpl.
  assert (Hlt : (i < List.length (index f))%nat).
  { apply nth_error_Some. congruence. }
  now rewrite nth_error_repeat.
Qed.

(** The whole loop over a list of labels. *)
Lemma index_ensure_all (v : option V) (l : list C) (f : frame R C V) :
  index (fold_left (ensure_column C_eqb v) l f) = index f.
Proof.
  revert f. induction l as [| c t IH]; intro f; simpl; [reflexivity |].
  now rewrite IH, index_ensure.
Qed.

Lemma has_column_ensure_all (v : option V) (l : list C) (f : frame R C V) (d : C) :
  has_column C_eqb (fold_left (ensure_column C_eqb v) l f) d = true
  <-> has_column C_eqb f d = true \/ In d l.
Proof.
  revert f. induction l as [| c t IH]; intro f; simpl; [tauto |].
  rewrite IH, has_column_ensure, orb_true_iff, C_eqb_eq.
  split; intuition auto.
Qed.

Lemma loc_ensure_all_old (v : option V) (l : list C) (f : frame R C V)
    (d : C) (r : R) :
  has_column C_eqb f d = true ->
  loc R_eqb C_eqb (fold_left (ensure_column C_eqb v) l f) r d = loc R_eqb C_eqb f r d.
Proof.
  revert f. induction l as [| c t IH]; intros f Hd; simpl; [reflexivity |].
  rewrite IH; [now apply loc_ensure_old |].
  rewrite has_column_ensure, Hd. reflexivity.
Qed.

Lemma loc_ensure_all_new (v : option V) (l : list C) (f : frame R C V)
    (d : C) (r : R) :
  has_column C_eqb f d = false ->
  In d l ->
  In r (index f) ->
  loc R_eqb C_eqb (fold_left (ensure_column C_eqb v) l f) r d = Ok v.
Proof.
  revert f. induction l as [| c t IH]; intros f Hd Hin Hr; simpl; [destruct Hin |].
  destruct (C_eqb d c) eqn:E.
  - apply C_eqb_eq in E. subst c.
    rewrite loc_ensure_all_old.
    + now apply loc_ensure_new.
    + rewrite has_column_ensure.
      assert (C_eqb d d = true) as -> by now apply C_eqb_eq.
      apply orb_true_r.
  - destruct Hin as [-> | Hin].
    + assert (C_eqb d d = true) by now apply C_eqb_eq. congruence.
    + apply IH; [| exact Hin | now rewrite index_ensure].
      now rewrite has_column_ensure, Hd, E.
Qed.
End FrameFacts.

(** ** The stacked-bar table: mean of product counts, filled with 0 *)

Import StoreStock.

Lemma key_eqb_eq (a b : Z * string) : key_eqb a b = true <-> a = b.
Proof.
  destruct a as [x s], b as [y t]. unfold key_eqb. simpl.
  rewrite andb_true_iff, Z.eqb_eq, String.eqb_eq. split.
  - intros [-> ->]. reflexivity.
  - intro H. injection H as -> ->. now split.
Qed.

Lemma group_long (df : list StoreStock.row) (k : Z * string) (c : string) :
  group key_eqb String.eqb (observed (long df)) k c
  = map (fun r => inject_Z (product_count r)) (contributing df k c).
Proof.
  unfold group, observed, long, contributing.
  induction df as [| r t IH]; simpl; [reflexivity |].
  destruct (key_eqb (StoreStock.store_id r, region r) k
            && String.eqb (stock_status r) c); simpl; now rewrite IH.
Qed.

Example pivot_df_two_stores :
  let df := [ {| StoreStock.store_id := 1; region := "East";
                 stock_status := "Adequate Stock"; product_count := 12 |};
              {| StoreStock.store_id := 2; region := "West";
                 stock_status := "Out of Stock"; product_count := 3 |} ] in
  loc key_eqb String.eqb (StoreStock.pivot_df df) (1%Z, "East") "Out of Stock"
    = Ok (Some 0) /\
  loc key_eqb String.eqb (StoreStock.pivot_df df) (1%Z, "East") "Near Reorder"
    = Ok (Some 0) /\
  map fst (columns (StoreStock.pivot_df df))
    = ["Adequate Stock"; "Out of Stock"; "Below Reorder"; "Near Reorder"].
Proof. repeat split; reflexivity. Qed.

(** C7: in the numeric pivot every cell of the dense table is defined: a
    pair of an index key and a column with no contributing row holds the
    fill value 0, a pair with contributing rows holds their aggregate (the
    mean of their counts). *)
Theorem pivot_df_fill (df : list StoreStock.row) (k : Z * string) (c : string) :
  In k (index (StoreStock.pivot_df df)) ->
  has_column String.eqb (StoreStock.pivot_df df) c = true ->
  loc key_eqb String.eqb (StoreStock.pivot_df df) k c =
    Ok (Some (match contributing df k c with
              | [] => 0
              | rows => mean (map (fun r => inject_Z (product_count r)) rows)
              end)).
Proof.
  unfold StoreStock.pivot_df, ensure_columns.
  set (t := pivot_table key_eqb key_leb String.eqb String.leb mean (long df) (Some 0)).
  intros Hk Hc.
  rewrite (index_ensure_all String.eqb (Some 0) status_order t) in Hk.
  destruct (has_column String.eqb t c) eqn:Et.
  - rewrite (loc_ensure_all_old key_eqb String.eqb String.eqb_eq (Some 0)
               status_order t c k Et).
    subst t. rewrite loc_pivot_table; try apply key_eqb_eq; try apply String.eqb_eq.
    + unfold pivot_cell. rewrite group_long.
      now destruct (contributing df k c).
    + exact Hk.
    + now apply (has_column_In String.eqb String.eqb_eq).
  - apply (has_column_ensure_all String.eqb String.eqb_eq) in Hc.
    destruct Hc as [Hc | Hc]; [congruence |].
    rewrite (loc_ensure_all_new key_eqb String.eqb key_eqb_eq String.eqb_eq
               (Some 0) status_order t c k Et Hc Hk).
    destruct (contributing df k c) as [| r rest] eqn:Ec; [reflexivity |].
    exfalso.
    assert (Hin : In (inject_Z (product_count r))
                     (group key_eqb String.eqb (observed (long df)) k c)).
    { rewrite group_long, Ec. now left. }
    apply (In_group key_eqb String.eqb key_eqb_eq String.eqb_eq) in Hin.
    assert (Hcol : In c (map fst (columns t))).
    { subst t. apply columns_pivot_table; [apply String.eqb_eq |]. eauto. }
    apply (has_column_In String.eqb String.eqb_eq) in Hcol. congruence.
Qed.

(** The cell of the pair (store 1, East) and the column "Out of Stock", to
    which no row contributes. *)
Lemma pivot_df_fill_witness :
  loc key_eqb String.eqb
      (StoreStock.pivot_df
         [ {| StoreStock.store_id := 1; region := "East";
              stock_status := "Adequate Stock"; product_count := 12 |};
           {| StoreStock.store_id := 2; region := "West";
              stock_status := "Out of Stock"; product_count := 3 |} ])
      (1%Z, "East") "Out of Stock"
  = Ok (Some 0).
Proof.
  refine (pivot_df_fill
            [ {| StoreStock.store_id := 1; region := "East";
                 stock_status := "Adequate Stock"; product_count := 12 |};
              {| StoreStock.store_id := 2; region := "West";
                 stock_status := "Out of Stock"; product_count := 3 |} ]
            (1%Z, "East") "Out of Stock" _ _).
  - vm_compute. left. reflexivity.
  - reflexivity.
Defined.

(** ** Month labels: string order and chronological order *)

Example to_period_dec_2022 : to_period "2022-12" = Some (2022, 12)%nat.
Proof. reflexivity. Qed.

Example to_period_short_month : to_period "2023-2" = Some (2023, 2)%nat.
Proof. reflexivity. Qed.

Example to_period_month_13 : to_period "2023-13" = None.
Proof. reflexivity. Qed.

Lemma digit_of_spec (c : ascii) (d : nat) :
  digit_of c = Some d -> nat_of_ascii c = (48 + d)%nat /\ (d <= 9)%nat.
Proof.
  unfold digit_of.
  destruct (48 <=? nat_of_ascii c)%nat eqn:E1; simpl; [| discriminate].
  destruct (nat_of_ascii c <=? 57)%nat eqn:E2; [| discriminate].
  apply Nat.leb_le in E1, E2. intro H. injection H as <-. lia.
Qed.


Lemma is_yyyy_mm_inv (s : string) :
  is_yyyy_mm s = true ->
  exists a b c d e f da db dc dd de df,
    s = String a (String b (String c (String d (String "-"
          (String e (String f EmptyString)))))) /\
    (digit_of a = Some da /\ digit_of b = Some db /\ digit_of c = Some dc /\
     digit_of d = Some dd /\ digit_of e = Some de /\ digit_of f = Some df) /\
    to_period s = Some (1000 * da + 100 * db + 10 * dc + dd, 10 * de + df)%nat /\
    (1 <= 10 * de + df <= 12)%nat.
Proof.
  unfold is_yyyy_mm.
  destruct s as [| a [| b [| c [| d [| h [| e [| f [| g rest]]]]]]]];
    try (cbn; discriminate);
    try (destruct (to_period _); cbn; discriminate).
  unfold to_period, parse_year, parse_month.
  destruct (Ascii.eqb_spec h "-") as [-> | _]; [| discriminate].
  destruct (digit_of a) as [da |] eqn:Ea; [| discriminate].
  destruct (digit_of b) as [db |] eqn:Eb; [| discriminate].
  destruct (digit_of c) as [dc |] eqn:Ec; [| discriminate].
  destruct (digit_of d) as [dd |] eqn:Ed; [| discriminate].
  destruct (digit_of e) as [de |] eqn:Ee; [| discriminate].
  destruct (digit_of f) as [df |] eqn:Ef; [| discriminate].
  destruct ((1 <=? 10 * de + df)%nat && (10 * de + df <=? 12)%nat) eqn:E;
    [| discriminate].
  intros _. apply andb_true_iff in E. destruct E as [E1 E2].
  apply Nat.leb_le in E1, E2.
  exists a, b, c, d, e, f, da, db, dc, dd, de, df. repeat split; auto.
Qed.



(** ** Sorting by a comparison that decides an order on the data *)

Section SortedOrder.
Context {A : Type}.
Variable leb : A -> A -> bool.
Variable P : A -> Prop.
Variable le : A -> A -> Prop.
Hypothesis leb_le : forall x y, P x -> P y -> (leb x y = true <-> le x y).
Hypothesis le_total : forall x y, P x -> P y -> le x y \/ le y x.
Hypothesis le_trans : forall x y z, P x -> P y -> P z -> le x y -> le y z -> le x z.

Lemma insert_sorted_ordered (x : A) (l : list A) :
  P x -> Forall P l -> StronglySorted le l ->
  StronglySorted le (insert_sorted leb x l).
Proof.
  intros Hx Hl Hs. induction Hs as [| y t Hs IH Hy]; simpl.
  - constructor; constructor.
  - inversion Hl as [| ? ? Py Pt]; subst.
    destruct (leb x y) eqn:E.
    + apply leb_le in E; auto.
      constructor; [now constructor |].
      constructor; [exact E |].
      rewrite Forall_forall in *. intros z Hz.
      apply (le_trans x y z); auto.
    + constructor; [now apply IH |].
      rewrite Forall_forall in *. intros z Hz.
      apply In_insert_sorted in Hz. destruct Hz as [-> | Hz]; [| now apply Hy].
      destruct (le_total x y Hx Py) as [H | H]; [| exact H].
      apply leb_le in H; auto. congruence.
Qed.

Lemma Forall_sorted (Q : A -> Prop) (l : list A) :
  Forall Q l -> Forall Q (sorted leb l).
Proof.
  rewrite !Forall_forall. intros H x Hx. apply H. now apply In_sorted in Hx.
Qed.

Lemma sorted_ordered (l : list A) :
  Forall P l -> StronglySorted le (sorted leb l).
Proof.
  induction 1 as [| x t Hx Ht IH]; simpl; [constructor |].
  apply insert_sorted_ordered; auto. now apply Forall_sorted.
Qed.

(** Sorting what is in order already changes nothing. *)
Lemma sorted_ordered_id (l : list A) :
  Forall P l -> StronglySorted le l -> sorted leb l = l.
Proof.
  intros Hl Hs. induction Hs as [| x t Hs IH Hx]; simpl; [reflexivity |].
  inversion Hl as [| ? ? Px Pt]; subst. rewrite (IH Pt).
  destruct t as [| y t']; simpl; [reflexivity |].
  inversion Hx as [| ? ? Hxy _]; subst. inversion Pt; subst.
  apply leb_le in Hxy; auto. now rewrite Hxy.
Qed.

End SortedOrder.

Lemma last_n_suffix {A : Type} (n : nat) (l : list A) :
  exists before, l = before ++ last_n n l /\
                 List.length (last_n n l) = Nat.min n (List.length l).
Proof.
  unfold last_n. exists (firstn (List.length l - n) l). split.
  - symmetry. apply firstn_skipn.
  - rewrite length_skipn. lia.
Qed.



Lemma months_labels (df : list MonthlyPerformance.row) (m : string) :
  In m (months df) <-> exists r, In r df /\ month r = m.
Proof.
  unfold months.
  rewrite In_sorted, (In_unique String.eqb String.eqb_eq), in_map_iff.
  split; intros [r [H1 H2]]; exists r; tauto.
Qed.








(** ** The run of monthly_performance(kpis).py *)

Import DbConnection.

Section Traces.
Variable keep : event -> bool.

Lemma events_bind {A B : Type} (m : io A) (f : A -> io B) :
  forallb keep (fst m) = true ->
  (forall a, forallb keep (fst (f a)) = true) ->
  forallb keep (fst (io_bind m f)) = true.
Proof.
  intros Hm Hf. unfold io_bind. destruct (snd m) as [a | e]; simpl.
  - rewrite forallb_app, Hm, Hf. reflexivity.
  - exact Hm.
Qed.

Lemma events_for_each {A : Type} (l : list A) (body : A -> io unit) :
  (forall x, forallb keep (fst (body x)) = true) ->
  forallb keep (fst (for_each l body)) = true.
Proof.
  intro Hb. induction l as [| x t IH]; simpl; [reflexivity |].
  apply events_bind; auto.
Qed.
End Traces.

Lemma dashboard_renders (df : list MonthlyPerformance.row) :
  forallb is_render (fst (dashboard df)) = true.
Proof.
  unfold dashboard.
  repeat first [ apply events_bind; [| intro]
               | apply events_for_each; intro
               | reflexivity ].
Qed.

Lemma sparklines_renders (df : list MonthlyPerformance.row) :
  forallb is_render (fst (sparklines df)) = true.
Proof.
  unfold sparklines.
  repeat first [ apply events_bind; [| intro]
               | apply events_for_each; intro
               | reflexivity ].
Qed.

Example main_one_row :
  main {| connect_ok := true;
          read_sql := Ok [ {| MonthlyPerformance.store_id := 1; month := "2023-01";
                              average_stock_level := PyNum 120;
                              stockout_rate := PyNum 0.05;
                              inventory_turnover := PyNum 2;
                              sell_through_rate := PyNaN |} ] |}
  = [EvConnect; EvReadSql; EvClose] ++ repeat EvDraw 9 ++ [EvShow]
    ++ repeat EvDraw 5 ++ [EvShow; EvExit 0].
Proof. reflexivity. Qed.

Example main_no_database :
  main {| connect_ok := false; read_sql := Raise DatabaseError |}
  = [EvConnect; EvPrint "Error connecting to database:";
     EvPrint "Database connection failed."; EvExit 1].
Proof. reflexivity. Qed.

(** C9, as the code has it: a run starts by calling get_connection, once.
    When the connection fails there is nothing to close: the run prints
    its messages and exits with status 1, with no query and no rendering.
    When the connection and the query succeed, the connection is closed
    right after the query, and everything between the close and the exit
    is rendering.  The query is not guarded by any handler: when it raises,
    the run ends there, with status 1 for an uncaught exception, and
    conn.close() is not reached. *)
Theorem main_trace (w : world (list MonthlyPerformance.row)) :
  (exists rest, main w = EvConnect :: rest /\ existsb is_connect rest = false) /\
  match connect_ok w, read_sql w with
  | false, _ =>
      main w = [EvConnect; EvPrint "Error connecting to database:";
                EvPrint "Database connection failed."; EvExit 1]
  | true, Raise e =>
      main w = [EvConnect; EvReadSql; EvExit (exit_status (Raise (A := unit) e))]
  | true, Ok df =>
      exists render status,
        main w = [EvConnect; EvReadSql; EvClose] ++ render ++ [EvExit status] /\
        forallb is_render render = true
  end.
Proof.
  assert (Hcases :
    match connect_ok w, read_sql w with
    | false, _ =>
        main w = [EvConnect; EvPrint "Error connecting to database:";
                  EvPrint "Database connection failed."; EvExit 1]
    | true, Raise e =>
        main w = [EvConnect; EvReadSql; EvExit (exit_status (Raise (A := unit) e))]
    | true, Ok df =>
        exists render status,
          main w = [EvConnect; EvReadSql; EvClose] ++ render ++ [EvExit status] /\
          forallb is_render render = true
    end).
  { unfold main, run, script, get_connection.
    destruct (connect_ok w); [| reflexivity].
    destruct (read_sql w) as [df | e]; [| reflexivity].
    exists (fst (dashboard df ;;; sparklines df)),
           (exit_status (snd (dashboard df ;;; sparklines df))).
    split.
    - unfold io_bind at 1 2 3 4. simpl. reflexivity.
    - apply events_bind; [apply dashboard_renders | intro; apply sparklines_renders]. }
  split; [| exact Hcases].
  destruct (connect_ok w); [destruct (read_sql w) as [df | e] |].
  - destruct Hcases as [render [status [-> Hr]]].
    eexists. split; [reflexivity |]. simpl.
    rewrite existsb_app. simpl. rewrite orb_false_r.
    clear -Hr. induction render as [| x t IH]; simpl in *; [reflexivity |].
    apply andb_true_iff in Hr. destruct Hr as [Hx Ht].
    rewrite (IH Ht). now destruct x.
  - rewrite Hcases. eexists. split; reflexivity.
  - rewrite Hcases. eexists. split; reflexivity.
Qed.

(** C9 as stated fails: the connection is made, the query raises, and the
    run ends without closing the connection. *)
Lemma failing_query_leaves_connection_open :
  let w := {| connect_ok := true; read_sql := Raise DatabaseError |} in
  main w = [EvConnect; EvReadSql; EvExit 1] /\
  existsb is_close (main w) = false.
Proof. split; reflexivity. Qed.

(** * Further properties of the scripts *)

(** ** monthly_performance(kpis).py: failures of the classifier *)

Lemma traffic_light_raise_cases (val : pyval) (kpi : string) (e : exn) :
  traffic_light val kpi = Raise e <->
  (val = PyNone /\ In kpi kpi_list /\ e = TypeError).
Proof.
  split.
  - intro H. destruct (existsb (String.eqb kpi) kpi_list) eqn:E.
    + apply kpi_list_dec in E. destruct val as [q | |].
      * destruct (traffic_light_total kpi q E) as [l [_ Hl]]. congruence.
      * exfalso. each_kpi E; discriminate H.
      * split; [reflexivity |]. split; [exact E |].
        each_kpi E; vm_compute in H; congruence.
    + assert (Hn : ~ In kpi kpi_list).
      { intro Hin. apply kpi_list_dec in Hin. congruence. }
      rewrite (traffic_light_unrecognized val kpi Hn) in H. discriminate H.
  - intros [-> [Hk ->]]. each_kpi Hk; reflexivity.
Qed.

Lemma traffic_light_labels (val : pyval) (kpi label : string) :
  traffic_light val kpi = Ok label ->
  In label ["green"; "yellow"; "red"; "gray"].
Proof.
  destruct (existsb (String.eqb kpi) kpi_list) eqn:E.
  - apply kpi_list_dec in E. destruct val as [q | |].
    + destruct (traffic_light_total kpi q E) as [l [Hin Hl]].
      intro H. rewrite Hl in H. injection H as <-. simpl in *. tauto.
    + intro H. each_kpi E; vm_compute in H; injection H as <-; simpl; tauto.
    + intro H. exfalso. each_kpi E; discriminate H.
  - assert (Hn : ~ In kpi kpi_list).
    { intro Hin. apply kpi_list_dec in Hin. congruence. }
    rewrite (traffic_light_unrecognized val kpi Hn).
    intro H. injection H as <-. simpl. tauto.
Qed.

Lemma color_map_total (val : pyval) (kpi label : string) :
  traffic_light val kpi = Ok label ->
  exists c, dict_item color_map label = Ok c.
Proof.
  intro H. apply traffic_light_labels in H. simpl in H.
  destruct H as [<- | [<- | [<- | [<- | []]]]]; eexists; reflexivity.
Qed.

(** X1: the classifier raises exactly for None as the value of a
    recognized KPI, and then it is a TypeError; a number, NaN, or any value
    of an unrecognized KPI never makes it fail. *)
Theorem traffic_light_raises (val : pyval) (kpi : string) (e : exn) :
  traffic_light val kpi = Raise e <->
  (val = PyNone /\ In kpi kpi_list /\ e = TypeError).
Proof. apply traffic_light_raise_cases. Qed.

(** X2: the colour lookup that follows the classifier cannot fail: every
    label the classifier returns, gray included, is a key of color_map. *)
Theorem color_map_covers (val : pyval) (kpi label : string) :
  traffic_light val kpi = Ok label ->
  exists c, dict_item color_map label = Ok c.
Proof. apply color_map_total. Qed.

Lemma color_map_covers_witness :
  exists c, dict_item color_map "gray" = Ok c.
Proof.
  apply (color_map_covers PyNone "units_sold" "gray"). reflexivity.
Defined.

(** ** monthly_performance(kpis).py: how a run ends *)

Lemma mapM_raises {A B : Type} (f : A -> result B) (l : list A) (e0 : exn) :
  (forall x e, In x l -> f x = Raise e -> e = e0) ->
  (exists x, In x l /\ f x = Raise e0) ->
  mapM f l = Raise e0.
Proof.
  induction l as [| y t IH]; intros Hall [x [Hin Hx]]; [destruct Hin |].
  simpl. destruct (f y) as [b | e] eqn:Ey; simpl.
  - destruct Hin as [-> | Hin]; [congruence |].
    rewrite IH; [reflexivity | | now exists x].
    intros z e Hz. apply Hall. now right.
  - f_equal. apply (Hall y); [now left | exact Ey].
Qed.

Lemma mapM_returns {A B : Type} (f : A -> result B) (l : list A) :
  (forall x, In x l -> exists y, f x = Ok y) ->
  exists ys, mapM f l = Ok ys /\ List.length ys = List.length l.
Proof.
  induction l as [| x t IH]; intro H; simpl.
  - now exists [].
  - destruct (H x (or_introl eq_refl)) as [y ->]. simpl.
    destruct IH as [ys [-> Hlen]]; [intros z Hz; apply H; now right |].
    simpl. exists (y :: ys). simpl. now rewrite Hlen.
Qed.

Lemma for_each_draws {A : Type} (l : list A) (body : A -> io unit) (k : nat) :
  (forall x, In x l -> body x = (repeat EvDraw k, Ok tt)) ->
  for_each l body = (repeat EvDraw (List.length l * k), Ok tt).
Proof.
  induction l as [| x t IH]; intro H; simpl; [reflexivity |].
  unfold io_bind. rewrite (H x (or_introl eq_refl)). simpl.
  rewrite IH; [| intros z Hz; apply H; now right]. simpl.
  now rewrite repeat_app.
Qed.










(** ** Keys: each once, in ascending order *)

Section UniqueFacts.
Context {A : Type}.
Variable eqb : A -> A -> bool.
Hypothesis eqb_eq : forall a b, eqb a b = true <-> a = b.

Lemma NoDup_unique_from (seen l : list A) : NoDup (unique_from eqb seen l).
Proof.
  revert seen. induction l as [| x t IH]; intro seen; simpl; [constructor |].
  destruct (existsb (eqb x) seen) eqn:E; [apply IH |].
  constructor; [| apply IH].
  intro H. apply (In_unique_from eqb eqb_eq) in H. destruct H as [_ H].
  apply H. now left.
Qed.

Lemma NoDup_unique (l : list A) : NoDup (unique eqb l).
Proof. apply NoDup_unique_from. Qed.
End UniqueFacts.

Section SortedKeys.
Context {A : Type}.
Variable leb : A -> A -> bool.

Lemma NoDup_insert_sorted (x : A) (l : list A) :
  ~ In x l -> NoDup l -> NoDup (insert_sorted leb x l).
Proof.
  induction l as [| y t IH]; simpl; intros Hx Hl.
  - constructor; [tauto | constructor].
  - destruct (leb x y).
    + constructor; [simpl; tauto | exact Hl].
    + inversion Hl as [| ? ? Hy Ht]; subst. constructor.
      * intro H. apply In_insert_sorted in H. destruct H as [-> | H]; tauto.
      * apply IH; tauto.
Qed.

Lemma NoDup_sorted (l : list A) : NoDup l -> NoDup (sorted leb l).
Proof.
  induction 1 as [| x t Hx Ht IH]; simpl; [constructor |].
  apply NoDup_insert_sorted; [| exact IH].
  intro H. now apply In_sorted in H.
Qed.

Lemma length_insert_sorted (x : A) (l : list A) :
  List.length (insert_sorted leb x l) = S (List.length l).
Proof.
  induction l as [| y t IH]; simpl; [reflexivity |].
  destruct (leb x y); simpl; [reflexivity | now rewrite IH].
Qed.

Lemma length_sorted (l : list A) : List.length (sorted leb l) = List.length l.
Proof.
  induction l as [| x t IH]; simpl; [reflexivity |].
  now rewrite length_insert_sorted, IH.
Qed.
End SortedKeys.

Lemma ordered_strict {A : Type} (le lt : A -> A -> Prop) (l : list A) :
  (forall a b, le a b -> a <> b -> lt a b) ->
  StronglySorted le l -> NoDup l -> StronglySorted lt l.
Proof.
  intros Hlt Hs. induction Hs as [| x t Hs IH Hx]; intro Hn; [constructor |].
  inversion Hn as [| ? ? Hnx Hnt]; subst. constructor; [now apply IH |].
  rewrite Forall_forall in *. intros y Hy. apply Hlt; [now apply Hx |].
  intros ->. contradiction.
Qed.

(** The order of Python's [str]: total and transitive. *)
Lemma string_leb_trans (a b c : string) :
  String.leb a b = true -> String.leb b c = true -> String.leb a c = true.
Proof.
  unfold String.leb. intros Hab Hbc.
  destruct (String.compare a b) eqn:Eab; try discriminate Hab.
  - apply String.compare_eq_iff in Eab. now subst.
  - destruct (String.compare b c) eqn:Ebc; try discriminate Hbc.
    + apply String.compare_eq_iff in Ebc. subst. now rewrite Eab.
    + apply OrderedTypeEx.String_as_OT.cmp_lt in Eab, Ebc.
      pose proof (OrderedTypeEx.String_as_OT.lt_trans _ _ _ Eab Ebc) as Hac.
      apply OrderedTypeEx.String_as_OT.cmp_lt in Hac.
      unfold OrderedTypeEx.String_as_OT.cmp in Hac. now rewrite Hac.
Qed.

Lemma string_leb_ltb (a b : string) :
  String.leb a b = true -> a <> b -> String.ltb a b = true.
Proof.
  unfold String.leb, String.ltb. intros H Hne.
  destruct (String.compare a b) eqn:E; try discriminate H; [| reflexivity].
  apply String.compare_eq_iff in E. contradiction.
Qed.

Lemma sorted_strings (l : list string) :
  StronglySorted (fun a b => String.leb a b = true) (sorted String.leb l).
Proof.
  apply (sorted_ordered String.leb (fun _ => True)
           (fun a b => String.leb a b = true)).
  - tauto.
  - intros x y _ _. apply String.leb_total.
  - intros x y z _ _ _. apply string_leb_trans.
  - apply Forall_forall. tauto.
Qed.

(** X5: [months] lists every month label of the data exactly once, in
    strictly ascending order of the strings, whatever the labels are. *)
Theorem months_strictly_ascending (df : list MonthlyPerformance.row) :
  StronglySorted (fun a b => String.ltb a b = true) (months df) /\
  (forall m, In m (months df) <-> exists r, In r df /\ month r = m).
Proof.
  split; [| apply months_labels].
  apply (ordered_strict (fun a b => String.leb a b = true)).
  - apply string_leb_ltb.
  - apply sorted_strings.
  - apply NoDup_sorted, (NoDup_unique String.eqb String.eqb_eq).
Qed.

(** X6: [last3months] is the tail of [months]: its last three labels, or
    all of them when the data has fewer than three months; sorting the
    sorted list again changes nothing. *)
Theorem last3months_tail (df : list MonthlyPerformance.row) :
  exists older,
    months df = older ++ last3months df /\
    List.length (last3months df) = Nat.min 3 (List.length (months df)).
Proof.
  unfold last3months.
  rewrite (sorted_ordered_id String.leb (fun _ => True)
             (fun a b => String.leb a b = true)).
  - apply last_n_suffix.
  - tauto.
  - apply Forall_forall. tauto.
  - apply sorted_strings.
Qed.

(** ** store_vs_product.py: the status of a row *)

(** X7: the ratio-based classifier raises exactly when a comparison meets
    None, and then it is a TypeError: when inventory_level is None, or
    when units_ordered is None and inventory_level is not the number 0
    (a row with inventory 0 is classified before units_ordered is read). *)
Theorem get_stock_status_raises (r : StoreVsProduct.row) (e : exn) :
  get_stock_status r = Raise e <->
  e = TypeError /\
  (inventory_level r = PyNone \/
   (units_ordered r = PyNone /\
    forall q, inventory_level r = PyNum q -> ~ q == 0)).
Proof.
  unfold get_stock_status.
  destruct (inventory_level r) as [q | |], (units_ordered r) as [u | |]; simpl;
    try destruct (Qeq_bool q 0) eqn:E; simpl; cmp_cases;
    (split; [intro H; try discriminate H | intros [He H]]);
    try (injection H as <-; split; [reflexivity |]);
    try (subst e; reflexivity);
    try (destruct H as [H | [H _]]; discriminate H);
    try (left; reflexivity).
  - destruct H as [H | [_ H]]; [discriminate H |].
    apply Qeq_bool_iff in E. now destruct (H q eq_refl).
  - right. split; [reflexivity |]. intros q' Hq' Hz. injection Hq' as <-.
    apply Qeq_bool_iff in Hz. congruence.
  - right. split; [reflexivity |]. intros q' Hq'. discriminate Hq'.
Qed.

(** X8: for a fixed number of units ordered, the status is monotone in a
    non-negative inventory level: more stock never gives a worse status
    code. *)
Theorem get_stock_status_monotone (r1 r2 : StoreVsProduct.row) (q1 q2 u : Q) :
  inventory_level r1 = PyNum q1 ->
  inventory_level r2 = PyNum q2 ->
  units_ordered r1 = PyNum u ->
  units_ordered r2 = PyNum u ->
  0 <= q1 -> q1 <= q2 ->
  exists k1 k2, code_of r1 k1 /\ code_of r2 k2 /\ (k1 <= k2)%nat.
Proof.
  intros H1 H2 Hu1 Hu2 H0 Hle. unfold code_of, get_stock_status.
  rewrite H1, H2, Hu1, Hu2. simpl.
  destruct (Qeq_bool q1 0) eqn:E1;
    [apply Qeq_bool_iff in E1 | apply Qeq_bool_neq in E1];
    (destruct (Qeq_bool q2 0) eqn:E2;
     [apply Qeq_bool_iff in E2 | apply Qeq_bool_neq in E2]);
    simpl; cmp_cases;
    try (exfalso; lra);
    try (do 2 eexists; split; [eexists; repeat split; reflexivity |];
         split; [eexists; repeat split; reflexivity |]; lia).
Qed.

Lemma get_stock_status_monotone_witness :
  exists k1 k2,
    code_of {| StoreVsProduct.store_id := 3; product_id := 8;
               inventory_level := PyNum 6; units_ordered := PyNum 20 |} k1 /\
    code_of {| StoreVsProduct.store_id := 3; product_id := 8;
               inventory_level := PyNum 14; units_ordered := PyNum 20 |} k2 /\
    (k1 <= k2)%nat.
Proof.
  apply (get_stock_status_monotone _ _ 6 14 20); try reflexivity.
  - unfold Qle. simpl. lia.
  - unfold Qle. simpl. lia.
Defined.

(** X9: a NaN does not raise and does not count as low stock: a row whose
    inventory_level is NaN (with units_ordered a number or NaN), or whose
    units_ordered is NaN with a non-zero inventory, is "Adequate". *)
Theorem get_stock_status_nan (r : StoreVsProduct.row) :
  (inventory_level r = PyNaN /\ units_ordered r <> PyNone) \/
  (units_ordered r = PyNaN /\
   exists q, inventory_level r = PyNum q /\ ~ q == 0) ->
  get_stock_status r = Ok "Adequate".
Proof.
  unfold get_stock_status. intros [[Hi Hu] | [Hu [q [Hi Hq]]]]; rewrite Hi.
  - destruct (units_ordered r); [reflexivity | reflexivity | contradiction].
  - rewrite Hu. simpl. destruct (Qeq_bool q 0) eqn:E; [| reflexivity].
    apply Qeq_bool_iff in E. contradiction.
Qed.

Lemma get_stock_status_nan_witness :
  get_stock_status {| StoreVsProduct.store_id := 3; product_id := 8;
                      inventory_level := PyNaN; units_ordered := PyNum 20 |}
  = Ok "Adequate".
Proof.
  apply get_stock_status_nan. left. split; [reflexivity | discriminate].
Defined.

(** X10: status_map is the inverse of status_labels: a label is mapped to
    a code exactly when the code is the position of the label in the list;
    no other string has a code. *)
Theorem status_map_inverse (label : string) (k : nat) :
  dict_get status_map label = Some k <-> nth_error status_labels k = Some label.
Proof.
  split.
  - unfold status_map, status_labels, enumerate. simpl.
    repeat match goal with
      | |- context [String.eqb label ?s] =>
          destruct (String.eqb_spec label s) as [-> | _]
      end; intro H; try discriminate H; injection H as <-; reflexivity.
  - intro H.
    destruct k as [| [| [| [| k]]]]; simpl in H; try discriminate H;
      try (injection H as <-; reflexivity).
    now destruct k.
Qed.

(** ** Reading a pivot table by labels *)

Section LocFacts.
Context {R C V : Type}.
Variables (R_eqb : R -> R -> bool) (C_eqb : C -> C -> bool).
Hypothesis R_eqb_eq : forall a b, R_eqb a b = true <-> a = b.
Hypothesis C_eqb_eq : forall a b, C_eqb a b = true <-> a = b.

Lemma get_loc_Some (x : R) (l : list R) (i : nat) :
  get_loc R_eqb x l = Some i -> In x l.
Proof.
  revert i. induction l as [| y t IH]; simpl; intro i; [discriminate |].
  destruct (R_eqb x y) eqn:E.
  - apply R_eqb_eq in E. now left.
  - destruct (get_loc R_eqb x t) as [j |]; simpl; [| discriminate].
    intros _. right. now apply (IH j).
Qed.

Lemma get_loc_None (x : R) (l : list R) :
  get_loc R_eqb x l = None <-> ~ In x l.
Proof.
  split.
  - intros H Hin. destruct (get_loc_In R_eqb R_eqb_eq x l Hin) as [i [Hi _]].
    congruence.
  - intro Hn. destruct (get_loc R_eqb x l) as [i |] eqn:G; [| reflexivity].
    apply get_loc_Some in G. contradiction.
Qed.

Lemma loc_defined (f : frame R C V) (r : R) (c : C) (v : option V) :
  loc R_eqb C_eqb f r c = Ok v ->
  In r (index f) /\ In c (map fst (columns f)).
Proof.
  unfold loc.
  destruct (find (fun col => C_eqb c (fst col)) (columns f)) as [col |] eqn:Ef;
    [| discriminate].
  destruct (get_loc R_eqb r (index f)) as [i |] eqn:Eg; [| discriminate].
  intros _. split; [now apply (get_loc_Some r _ i) |].
  apply find_some in Ef. destruct Ef as [Hin Heq].
  apply C_eqb_eq in Heq. subst c. now apply in_map.
Qed.

Lemma loc_missing (f : frame R C V) (r : R) (c : C) :
  ~ In r (index f) \/ ~ In c (map fst (columns f)) ->
  loc R_eqb C_eqb f r c = Raise KeyError.
Proof.
  unfold loc. intros [Hr | Hc].
  - apply get_loc_None in Hr. rewrite Hr.
    now destruct (find (fun col => C_eqb c (fst col)) (columns f)).
  - now rewrite (find_column_none C_eqb C_eqb C_eqb_eq c _ Hc).
Qed.

Lemma loc_raises (f : frame R C V) (r : R) (c : C) (e : exn) :
  loc R_eqb C_eqb f r c = Raise e -> e = KeyError.
Proof.
  unfold loc.
  destruct (find (fun col => C_eqb c (fst col)) (columns f)) as [col |];
    [| congruence].
  destruct (get_loc R_eqb r (index f)) as [i |]; [| congruence].
  destruct (nth_error (snd col) i); congruence.
Qed.
End LocFacts.

(** ** store_vs_product.py: the heatmap table *)

Lemma pivot_df_inv (df : list StoreVsProduct.row) (f : frame Z Z nat) :
  StoreVsProduct.pivot_df df = Ok f ->
  exists labels,
    Forall2 (fun r l => get_stock_status r = Ok l) df labels /\
    f = pivot_table Z.eqb Z.leb Z.eqb Z.leb agg_min
          (map (fun x => (product_id (fst x), StoreVsProduct.store_id (fst x), snd x))
               (combine df (status_code labels)))
          None.
Proof.
  unfold StoreVsProduct.pivot_df, StoreVsProduct.stock_status. intro H.
  destruct (mapM get_stock_status df) as [labels |] eqn:Em; simpl in H;
    [| discriminate].
  injection H as <-. exists labels. split; [now apply mapM_Forall2 | reflexivity].
Qed.

Lemma row_has_code (df : list StoreVsProduct.row) (labels : list string)
    (r : StoreVsProduct.row) :
  Forall2 (fun r l => get_stock_status r = Ok l) df labels ->
  In r df -> exists k, code_of r k.
Proof.
  induction 1 as [| r' l df' ls Hr _ IH]; simpl; [tauto |].
  intros [<- | H]; [now apply (code_of_defined _ l) | now apply IH].
Qed.

Lemma sorted_Z (l : list Z) : StronglySorted Z.le (sorted Z.leb l).
Proof.
  apply (sorted_ordered Z.leb (fun _ => True) Z.le).
  - intros x y _ _. apply Z.leb_le.
  - intros x y _ _. lia.
  - intros x y z _ _ _. lia.
  - apply Forall_forall. tauto.
Qed.

Lemma keys_Z_ascending (l : list Z) :
  StronglySorted Z.lt (sorted Z.leb (unique Z.eqb l)).
Proof.
  apply (ordered_strict Z.le).
  - intros a b. lia.
  - apply sorted_Z.
  - apply NoDup_sorted, (NoDup_unique Z.eqb Z.eqb_eq).
Qed.

Lemma pivot_df_keys_spec (df : list StoreVsProduct.row) (f : frame Z Z nat) :
  StoreVsProduct.pivot_df df = Ok f ->
  (StronglySorted Z.lt (index f) /\
   forall p, In p (index f) <-> exists r, In r df /\ product_id r = p) /\
  (StronglySorted Z.lt (map fst (columns f)) /\
   forall s, In s (map fst (columns f))
             <-> exists r, In r df /\ StoreVsProduct.store_id r = s).
Proof.
  intro Hf. destruct (pivot_df_inv df f Hf) as [labels [Hl ->]].
  split; split.
  - apply keys_Z_ascending.
  - intro p. rewrite index_pivot_table by apply Z.eqb_eq. split.
    + intros [s [k Hin]]. apply (In_observed_codes df labels p s k Hl) in Hin.
      destruct Hin as [r [Hr [Hp _]]]. now exists r.
    + intros [r [Hr Hp]]. destruct (row_has_code df labels r Hl Hr) as [k Hk].
      exists (StoreVsProduct.store_id r), k.
      apply (In_observed_codes df labels p _ k Hl). now exists r.
  - simpl. rewrite map_map. simpl. rewrite map_id. apply keys_Z_ascending.
  - intro s. rewrite columns_pivot_table by apply Z.eqb_eq. split.
    + intros [p [k Hin]]. apply (In_observed_codes df labels p s k Hl) in Hin.
      destruct Hin as [r [Hr [_ [Hs _]]]]. now exists r.
    + intros [r [Hr Hs]]. destruct (row_has_code df labels r Hl Hr) as [k Hk].
      exists (product_id r), k.
      apply (In_observed_codes df labels _ s k Hl). now exists r.
Qed.

(** X11: the rows of the heatmap table are the product ids of the data and
    its columns the store ids, each once and in strictly ascending order. *)
Theorem pivot_df_keys (df : list StoreVsProduct.row) (f : frame Z Z nat) :
  StoreVsProduct.pivot_df df = Ok f ->
  (StronglySorted Z.lt (index f) /\
   forall p, In p (index f) <-> exists r, In r df /\ product_id r = p) /\
  (StronglySorted Z.lt (map fst (columns f)) /\
   forall s, In s (map fst (columns f))
             <-> exists r, In r df /\ StoreVsProduct.store_id r = s).
Proof. apply pivot_df_keys_spec. Qed.

Lemma pivot_df_keys_witness :
  exists f,
    StoreVsProduct.pivot_df
      [ {| StoreVsProduct.store_id := 2; product_id := 9;
           inventory_level := PyNum 4; units_ordered := PyNum 10 |};
        {| StoreVsProduct.store_id := 1; product_id := 7;
           inventory_level := PyNum 50; units_ordered := PyNum 10 |} ] = Ok f /\
    StronglySorted Z.lt (index f) /\ StronglySorted Z.lt (map fst (columns f)).
Proof.
  destruct (StoreVsProduct.pivot_df
              [ {| StoreVsProduct.store_id := 2; product_id := 9;
                   inventory_level := PyNum 4; units_ordered := PyNum 10 |};
                {| StoreVsProduct.store_id := 1; product_id := 7;
                   inventory_level := PyNum 50; units_ordered := PyNum 10 |} ])
    as [f |] eqn:Ef; [| discriminate Ef].
  exists f. split; [reflexivity |].
  destruct (pivot_df_keys _ f Ef) as [[H1 _] [H2 _]]. now split.
Defined.

Lemma pivot_df_loc (df : list StoreVsProduct.row) (labels : list string) (p s : Z) :
  Forall2 (fun r l => get_stock_status r = Ok l) df labels ->
  (exists r, In r df /\ product_id r = p) ->
  (exists r, In r df /\ StoreVsProduct.store_id r = s) ->
  loc Z.eqb Z.eqb
      (pivot_table Z.eqb Z.leb Z.eqb Z.leb agg_min
         (map (fun x => (product_id (fst x), StoreVsProduct.store_id (fst x), snd x))
              (combine df (status_code labels)))
         None) p s
  = Ok (pivot_cell Z.eqb Z.eqb agg_min
          (observed (map (fun x => (product_id (fst x),
                                    StoreVsProduct.store_id (fst x), snd x))
                         (combine df (status_code labels))))
          None p s).
Proof.
  intros Hl [r1 [Hr1 Hp]] [r2 [Hr2 Hs]].
  destruct (row_has_code df labels r1 Hl Hr1) as [k1 Hk1].
  destruct (row_has_code df labels r2 Hl Hr2) as [k2 Hk2].
  apply loc_pivot_table; try apply Z.eqb_eq.
  - apply index_pivot_table; [apply Z.eqb_eq |].
    exists (StoreVsProduct.store_id r1), k1.
    apply (In_observed_codes df labels p _ k1 Hl). now exists r1.
  - apply columns_pivot_table; [apply Z.eqb_eq |].
    exists (product_id r2), k2.
    apply (In_observed_codes df labels _ s k2 Hl). now exists r2.
Qed.

(** X12: a product and a store that both occur in the data but never in
    one row have a NaN cell: the heatmap table is built without a fill
    value. *)
Theorem pivot_df_nan_cell (df : list StoreVsProduct.row) (f : frame Z Z nat) (p s : Z) :
  StoreVsProduct.pivot_df df = Ok f ->
  (exists r, In r df /\ product_id r = p) ->
  (exists r, In r df /\ StoreVsProduct.store_id r = s) ->
  (forall r, In r df -> ~ (product_id r = p /\ StoreVsProduct.store_id r = s)) ->
  loc Z.eqb Z.eqb f p s = Ok None.
Proof.
  intros Hf Hp Hs Hno. destruct (pivot_df_inv df f Hf) as [labels [Hl ->]].
  rewrite (pivot_df_loc df labels p s Hl Hp Hs). unfold pivot_cell.
  match goal with
  | |- context [group Z.eqb Z.eqb ?obs p s] =>
      destruct (group Z.eqb Z.eqb obs p s) as [| k t] eqn:Eg; [reflexivity |];
      assert (Hin : In k (group Z.eqb Z.eqb obs p s)) by (rewrite Eg; now left)
  end.
  apply (In_group Z.eqb Z.eqb Z.eqb_eq Z.eqb_eq) in Hin.
  apply (In_observed_codes df labels p s k Hl) in Hin.
  destruct Hin as [r [Hr [Hrp [Hrs _]]]]. now destruct (Hno r Hr).
Qed.

Lemma pivot_df_nan_cell_witness :
  exists f,
    StoreVsProduct.pivot_df
      [ {| StoreVsProduct.store_id := 2; product_id := 9;
           inventory_level := PyNum 4; units_ordered := PyNum 10 |};
        {| StoreVsProduct.store_id := 1; product_id := 7;
           inventory_level := PyNum 50; units_ordered := PyNum 10 |} ] = Ok f /\
    loc Z.eqb Z.eqb f 7%Z 2%Z = Ok None.
Proof.
  destruct (StoreVsProduct.pivot_df
              [ {| StoreVsProduct.store_id := 2; product_id := 9;
                   inventory_level := PyNum 4; units_ordered := PyNum 10 |};
                {| StoreVsProduct.store_id := 1; product_id := 7;
                   inventory_level := PyNum 50; units_ordered := PyNum 10 |} ])
    as [f |] eqn:Ef; [| discriminate Ef].
  exists f. split; [reflexivity |].
  apply (pivot_df_nan_cell _ f 7%Z 2%Z Ef).
  - eexists. split; [right; left; reflexivity | reflexivity].
  - eexists. split; [left; reflexivity | reflexivity].
  - intros r [<- | [<- | []]] [H1 H2]; simpl in *; discriminate.
Defined.

(** Reading the heatmap table at a product id or a store id that does not
    occur in the data is a KeyError, and that is the only way a read
    fails. *)
Lemma pivot_df_key_error (df : list StoreVsProduct.row) (f : frame Z Z nat)
    (p s : Z) (e : exn) :
  StoreVsProduct.pivot_df df = Ok f ->
  (loc Z.eqb Z.eqb f p s = Raise e <->
   e = KeyError /\
   (~ (exists r, In r df /\ product_id r = p) \/
    ~ (exists r, In r df /\ StoreVsProduct.store_id r = s))).
Proof.
  intro Hf. destruct (pivot_df_keys_spec df f Hf) as [[_ Hidx] [_ Hcol]]. split.
  - intro H. split; [now apply loc_raises in H |].
    destruct (in_dec Z.eq_dec p (index f)) as [Hp | Hp];
      [| left; intro Hex; now apply Hp, Hidx].
    destruct (in_dec Z.eq_dec s (map fst (columns f))) as [Hs | Hs];
      [| right; intro Hex; now apply Hs, Hcol].
    exfalso. apply Hidx in Hp. apply Hcol in Hs.
    destruct (pivot_df_inv df f Hf) as [labels [Hl ->]].
    rewrite (pivot_df_loc df labels p s Hl Hp Hs) in H. discriminate H.
  - intros [-> H]. apply (loc_missing Z.eqb Z.eqb Z.eqb_eq Z.eqb_eq).
    destruct H as [H | H]; [left | right]; intro Hin; apply H;
      [now apply Hidx | now apply Hcol].
Qed.

Lemma pivot_df_key_error_witness :
  exists f,
    StoreVsProduct.pivot_df
      [ {| StoreVsProduct.store_id := 2; product_id := 9;
           inventory_level := PyNum 4; units_ordered := PyNum 10 |} ] = Ok f /\
    loc Z.eqb Z.eqb f 7%Z 2%Z = Raise KeyError.
Proof.
  destruct (StoreVsProduct.pivot_df
              [ {| StoreVsProduct.store_id := 2; product_id := 9;
                   inventory_level := PyNum 4; units_ordered := PyNum 10 |} ])
    as [f |] eqn:Ef; [| discriminate Ef].
  exists f. split; [reflexivity |].
  apply (pivot_df_key_error _ f 7%Z 2%Z KeyError Ef).
  split; [reflexivity |]. left.
  intros [r [[<- | []] H]]. discriminate H.
Defined.

(** X13: a cell of the heatmap table that is not NaN is the status code of
    one of the rows of its product and store; it is one of the four codes
    0..3 that the colour map and the colour bar know. *)
Theorem pivot_df_cell_code (df : list StoreVsProduct.row) (f : frame Z Z nat)
    (p s : Z) (m : nat) :
  StoreVsProduct.pivot_df df = Ok f ->
  loc Z.eqb Z.eqb f p s = Ok (Some m) ->
  (m < List.length status_colors)%nat /\
  exists r, In r df /\ product_id r = p /\ StoreVsProduct.store_id r = s /\
            code_of r m.
Proof.
  intros Hf Hloc.
  destruct (pivot_df_keys_spec df f Hf) as [[_ Hidx] [_ Hcol]].
  destruct (loc_defined Z.eqb Z.eqb Z.eqb_eq Z.eqb_eq f p s _ Hloc) as [Hp Hs].
  apply Hidx in Hp. apply Hcol in Hs.
  destruct (pivot_df_inv df f Hf) as [labels [Hl ->]].
  rewrite (pivot_df_loc df labels p s Hl Hp Hs) in Hloc. unfold pivot_cell in Hloc.
  match type of Hloc with
  | context [group Z.eqb Z.eqb ?obs p s] =>
      destruct (group Z.eqb Z.eqb obs p s) as [| k t] eqn:Eg; [discriminate Hloc |];
      assert (Hin : In m (group Z.eqb Z.eqb obs p s))
  end.
  { injection Hloc as <-. rewrite Eg. apply agg_min_spec. }
  apply (In_group Z.eqb Z.eqb Z.eqb_eq Z.eqb_eq) in Hin.
  apply (In_observed_codes df labels p s m Hl) in Hin.
  destruct Hin as [r [Hr [Hrp [Hrs Hc]]]]. split; [| now exists r].
  destruct Hc as [label [_ [_ Hn]]].
  change (List.length status_colors) with (List.length status_labels).
  apply nth_error_Some. congruence.
Qed.

Lemma pivot_df_cell_code_witness :
  exists f,
    StoreVsProduct.pivot_df
      [ {| StoreVsProduct.store_id := 2; product_id := 9;
           inventory_level := PyNum 4; units_ordered := PyNum 10 |} ] = Ok f /\
    loc Z.eqb Z.eqb f 9%Z 2%Z = Ok (Some 1%nat) /\
    (1 < List.length status_colors)%nat.
Proof.
  destruct (StoreVsProduct.pivot_df
              [ {| StoreVsProduct.store_id := 2; product_id := 9;
                   inventory_level := PyNum 4; units_ordered := PyNum 10 |} ])
    as [f |] eqn:Ef; [| discriminate Ef].
  exists f. split; [reflexivity |].
  assert (Hloc : loc Z.eqb Z.eqb f 9%Z 2%Z = Ok (Some 1%nat)).
  { injection Ef as <-. reflexivity. }
  split; [exact Hloc |].
  apply (pivot_df_cell_code _ f 9%Z 2%Z 1%nat Ef Hloc).
Defined.

Lemma mapM_raise_inv {A B : Type} (f : A -> result B) (l : list A) (e : exn) :
  mapM f l = Raise e -> exists x, In x l /\ f x = Raise e.
Proof.
  induction l as [| x t IH]; simpl; [discriminate |].
  destruct (f x) as [y | e'] eqn:Ex; simpl.
  - destruct (mapM f t) as [ys |]; simpl; [discriminate |].
    intro H. destruct (IH H) as [z [Hz Hfz]]. exists z. split; [now right | exact Hfz].
  - intro H. injection H as <-. exists x. split; [now left | exact Ex].
Qed.

Lemma get_stock_status_type_error (r : StoreVsProduct.row) (e : exn) :
  get_stock_status r = Raise e -> e = TypeError.
Proof.
  unfold get_stock_status.
  destruct (py_eq (inventory_level r) (PyNum 0)); [discriminate |].
  destruct (inventory_level r) as [q | |], (units_ordered r) as [u | |]; simpl;
    cmp_cases; congruence.
Qed.

(** X14: the heatmap table is built unless classifying some row raises:
    building it fails exactly when some row makes get_stock_status raise,
    and the failure is that row's TypeError. *)
Theorem pivot_df_raises (df : list StoreVsProduct.row) (e : exn) :
  StoreVsProduct.pivot_df df = Raise e <->
  e = TypeError /\ exists r, In r df /\ get_stock_status r = Raise TypeError.
Proof.
  unfold StoreVsProduct.pivot_df, StoreVsProduct.stock_status. split.
  - destruct (mapM get_stock_status df) as [labels |] eqn:Em; simpl;
      [discriminate |].
    intro H. injection H as <-.
    destruct (mapM_raise_inv _ _ _ Em) as [r [Hr He]].
    pose proof (get_stock_status_type_error r _ He) as ->. split; [reflexivity |].
    now exists r.
  - intros [-> Hex]. rewrite (mapM_raises get_stock_status df TypeError).
    + reflexivity.
    + intros x e _. apply get_stock_status_type_error.
    + exact Hex.
Qed.

(** ** storeid_numberofproducts_stock.py: the stacked-bar table *)

Lemma pivot_df_columns (df : list StoreStock.row) (c : string) :
  has_column String.eqb (StoreStock.pivot_df df) c = true <->
  (exists r, In r df /\ stock_status r = c) \/ In c status_order.
Proof.
  unfold StoreStock.pivot_df, ensure_columns.
  rewrite (has_column_ensure_all String.eqb String.eqb_eq).
  rewrite (has_column_In String.eqb String.eqb_eq).
  rewrite columns_pivot_table by apply String.eqb_eq.
  assert (Hobs : (exists (k : Z * string) (v : Q), In (k, c, v) (observed (long df)))
                 <-> exists r, In r df /\ stock_status r = c).
  { unfold observed, long. rewrite flat_map_concat_map, map_map. simpl.
    split.
    - intros [k [v H]]. apply in_concat in H. destruct H as [l [Hl Hin]].
      apply in_map_iff in Hl. destruct Hl as [r [<- Hr]].
      destruct Hin as [Heq | []]. injection Heq as _ Hc _. now exists r.
    - intros [r [Hr Hc]].
      exists (StoreStock.store_id r, region r), (inject_Z (product_count r)).
      apply in_concat. eexists. split; [apply in_map_iff; exists r; split;
                                         [reflexivity | exact Hr] |].
      left. now rewrite Hc. }
  now rewrite Hobs.
Qed.

Lemma pivot_df_index (df : list StoreStock.row) (k : Z * string) :
  In k (index (StoreStock.pivot_df df)) <->
  exists r, In r df /\ (StoreStock.store_id r, region r) = k.
Proof.
  unfold StoreStock.pivot_df, ensure_columns.
  rewrite (index_ensure_all String.eqb).
  rewrite index_pivot_table by apply key_eqb_eq.
  unfold observed, long. rewrite flat_map_concat_map, map_map. simpl. split.
  - intros [c [v H]]. apply in_concat in H. destruct H as [l [Hl Hin]].
    apply in_map_iff in Hl. destruct Hl as [r [<- Hr]].
    destruct Hin as [Heq | []]. injection Heq as Hk _ _.
    exists r. split; [exact Hr | exact Hk].
  - intros [r [Hr Hk]]. exists (stock_status r), (inject_Z (product_count r)).
    apply in_concat. eexists. split; [apply in_map_iff; exists r; split;
                                       [reflexivity | exact Hr] |].
    left. now rewrite <- Hk.
Qed.

Lemma pivot_df_cell (df : list StoreStock.row) (k : Z * string) (c : string) :
  In k (index (StoreStock.pivot_df df)) ->
  has_column String.eqb (StoreStock.pivot_df df) c = true ->
  loc key_eqb String.eqb (StoreStock.pivot_df df) k c =
    Ok (Some (match contributing df k c with
              | [] => 0
              | rows => mean (map (fun r => inject_Z (product_count r)) rows)
              end)).
Proof.
  unfold StoreStock.pivot_df, ensure_columns.
  set (t := pivot_table key_eqb key_leb String.eqb String.leb mean (long df) (Some 0)).
  intros Hk Hc.
  rewrite (index_ensure_all String.eqb (Some 0) status_order t) in Hk.
  destruct (has_column String.eqb t c) eqn:Et.
  - rewrite (loc_ensure_all_old key_eqb String.eqb String.eqb_eq (Some 0)
               status_order t c k Et).
    subst t. rewrite loc_pivot_table; try apply key_eqb_eq; try apply String.eqb_eq.
    + unfold pivot_cell. rewrite group_long.
      now destruct (contributing df k c).
    + exact Hk.
    + now apply (has_column_In String.eqb String.eqb_eq).
  - apply (has_column_ensure_all String.eqb String.eqb_eq) in Hc.
    destruct Hc as [Hc | Hc]; [congruence |].
    rewrite (loc_ensure_all_new key_eqb String.eqb key_eqb_eq String.eqb_eq
               (Some 0) status_order t c k Et Hc Hk).
    destruct (contributing df k c) as [| r rest] eqn:Ec; [reflexivity |].
    exfalso.
    assert (Hin : In (inject_Z (product_count r))
                     (group key_eqb String.eqb (observed (long df)) k c)).
    { rewrite group_long, Ec. now left. }
    apply (In_group key_eqb String.eqb key_eqb_eq String.eqb_eq) in Hin.
    assert (Hcol : In c (map fst (columns t))).
    { subst t. apply columns_pivot_table; [apply String.eqb_eq |]. eauto. }
    apply (has_column_In String.eqb String.eqb_eq) in Hcol. congruence.
Qed.

(** X15: after the loop over status_order the table has a column for each
    of the four statuses, whether or not the data has such rows; so the
    stacked bars can read every status of every (store, region) of the
    table without a KeyError, and the cell they read is a number. *)
Theorem pivot_df_status_cells (df : list StoreStock.row) (k : Z * string)
    (status : string) :
  In k (index (StoreStock.pivot_df df)) ->
  In status status_order ->
  has_column String.eqb (StoreStock.pivot_df df) status = true /\
  exists v, loc key_eqb String.eqb (StoreStock.pivot_df df) k status = Ok (Some v).
Proof.
  intros Hk Hs.
  assert (Hc : has_column String.eqb (StoreStock.pivot_df df) status = true).
  { apply pivot_df_columns. now right. }
  split; [exact Hc |]. eexists. now apply pivot_df_cell.
Qed.

Lemma pivot_df_status_cells_witness :
  let df := [ {| StoreStock.store_id := 1; region := "East";
                 stock_status := "Adequate Stock"; product_count := 12 |} ] in
  has_column String.eqb (StoreStock.pivot_df df) "Near Reorder" = true /\
  exists v, loc key_eqb String.eqb (StoreStock.pivot_df df) (1%Z, "East")
              "Near Reorder" = Ok (Some v).
Proof.
  intro df. apply (pivot_df_status_cells df (1%Z, "East") "Near Reorder").
  - vm_compute. left. reflexivity.
  - simpl. tauto.
Defined.

(** X16: when exactly one row of the data has a given (store, region) and
    status, as the GROUP BY of the query makes it, the cell of the table is
    the product_count of that row: the mean of one value. *)
Theorem pivot_df_single_row (df : list StoreStock.row) (k : Z * string)
    (c : string) (r : StoreStock.row) :
  contributing df k c = [r] ->
  exists v, loc key_eqb String.eqb (StoreStock.pivot_df df) k c = Ok (Some v) /\
            v == inject_Z (product_count r).
Proof.
  intro Hc.
  assert (Hr : In r (contributing df k c)) by (rewrite Hc; now left).
  unfold contributing in Hr. apply filter_In in Hr. destruct Hr as [Hr Hkey].
  apply andb_true_iff in Hkey. destruct Hkey as [Hk Hs].
  apply key_eqb_eq in Hk. apply String.eqb_eq in Hs.
  eexists. split.
  - apply pivot_df_cell.
    + apply pivot_df_index. now exists r.
    + apply pivot_df_columns. left. now exists r.
  - rewrite Hc. unfold mean. simpl. field.
Qed.

Lemma pivot_df_single_row_witness :
  exists v,
    loc key_eqb String.eqb
        (StoreStock.pivot_df
           [ {| StoreStock.store_id := 1; region := "East";
                stock_status := "Adequate Stock"; product_count := 12 |};
             {| StoreStock.store_id := 1; region := "East";
                stock_status := "Out of Stock"; product_count := 3 |} ])
        (1%Z, "East") "Out of Stock" = Ok (Some v) /\
    v == inject_Z 3.
Proof.
  refine (pivot_df_single_row
            [ {| StoreStock.store_id := 1; region := "East";
                 stock_status := "Adequate Stock"; product_count := 12 |};
              {| StoreStock.store_id := 1; region := "East";
                 stock_status := "Out of Stock"; product_count := 3 |} ]
            (1%Z, "East") "Out of Stock"
            {| StoreStock.store_id := 1; region := "East";
               stock_status := "Out of Stock"; product_count := 3 |} _).
  reflexivity.
Defined.

Lemma key_leb_iff (a b : Z * string) :
  key_leb a b = true <->
  (fst a < fst b)%Z \/ (fst a = fst b /\ String.leb (snd a) (snd b) = true).
Proof.
  unfold key_leb. rewrite orb_true_iff, andb_true_iff, Z.ltb_lt, Z.eqb_eq.
  tauto.
Qed.

Lemma sorted_keys (l : list (Z * string)) :
  StronglySorted (fun a b => key_leb a b = true) (sorted key_leb l).
Proof.
  apply (sorted_ordered key_leb (fun _ => True) (fun a b => key_leb a b = true)).
  - tauto.
  - intros x y _ _. rewrite !key_leb_iff.
    destruct (Z.lt_trichotomy (fst x) (fst y)) as [H | [H | H]];
      [left; now left | | right; now left].
    destruct (String.leb_total (snd x) (snd y)) as [L | L];
      [left | right]; right; auto.
  - intros x y z _ _ _. rewrite !key_leb_iff.
    intros [H1 | [H1 L1]] [H2 | [H2 L2]]; try lia.
    right. split; [lia |]. now apply (string_leb_trans _ (snd y)).
  - apply Forall_forall. tauto.
Qed.

(** X17: the rows of the stacked-bar table are the (store_id, region)
    pairs of the data, each once, in strictly ascending order: by store_id,
    and by region among the rows of one store. *)
Theorem pivot_df_index_ascending (df : list StoreStock.row) :
  StronglySorted
    (fun a b => (fst a < fst b)%Z \/
                (fst a = fst b /\ String.ltb (snd a) (snd b) = true))
    (index (StoreStock.pivot_df df)) /\
  (forall k, In k (index (StoreStock.pivot_df df)) <->
             exists r, In r df /\ (StoreStock.store_id r, region r) = k).
Proof.
  split; [| apply pivot_df_index].
  unfold StoreStock.pivot_df, ensure_columns.
  rewrite (index_ensure_all String.eqb). simpl.
  apply (ordered_strict (fun a b => key_leb a b = true)).
  - intros a b Hle Hne. apply key_leb_iff in Hle.
    destruct Hle as [H | [H L]]; [now left |]. right. split; [exact H |].
    apply string_leb_ltb; [exact L |]. intro Heq. apply Hne.
    destruct a, b. simpl in *. congruence.
  - apply sorted_keys.
  - apply NoDup_sorted, (NoDup_unique key_eqb key_eqb_eq).
Qed.

(** ** The region plots: cleaning of the labels *)

Import RegionPlots.

Lemma remove_nul_app (s t : string) :
  remove_nul (s ++ t)%string = (remove_nul s ++ remove_nul t)%string.
Proof.
  induction s as [| c s IH]; simpl; [reflexivity |].
  destruct (Ascii.eqb c zero); simpl; now rewrite IH.
Qed.

Lemma remove_nul_chars (s : string) (c : ascii) :
  In c (list_ascii_of_string (remove_nul s)) <->
  In c (list_ascii_of_string s) /\ c <> zero.
Proof.
  induction s as [| d s IH]; simpl; [tauto |].
  destruct (Ascii.eqb_spec d zero) as [-> | Hd]; simpl; rewrite IH.
  - split; [tauto |]. intros [[<- | H] Hc]; tauto.
  - split; [| tauto]. intros [<- | H]; tauto.
Qed.

Lemma remove_nul_id (s : string) :
  ~ In zero (list_ascii_of_string s) -> remove_nul s = s.
Proof.
  induction s as [| d s IH]; simpl; [reflexivity |].
  intro H. destruct (Ascii.eqb_spec d zero) as [-> | Hd]; [tauto |].
  rewrite IH; tauto.
Qed.

Lemma lstrip_chars (s : string) (c : ascii) :
  In c (list_ascii_of_string (lstrip s)) -> In c (list_ascii_of_string s).
Proof.
  induction s as [| d s IH]; simpl; [tauto |].
  destruct (is_space d); simpl; tauto.
Qed.

Lemma rstrip_chars (s : string) (c : ascii) :
  In c (list_ascii_of_string (rstrip s)) -> In c (list_ascii_of_string s).
Proof.
  induction s as [| d s IH]; simpl; [tauto |].
  destruct (rstrip s) as [| e t] eqn:E.
  - destruct (is_space d); simpl; tauto.
  - simpl in *. tauto.
Qed.

(** What [lstrip] returns does not start with white space. *)
Lemma lstrip_head (s : string) (c : ascii) (t : string) :
  lstrip s = String c t -> is_space c = false.
Proof.
  induction s as [| d s IH]; simpl; [discriminate |].
  destruct (is_space d) eqn:E; [exact IH |].
  intro H. injection H as <- _. exact E.
Qed.

Lemma lstrip_fixed (c : ascii) (t : string) :
  is_space c = false -> lstrip (String c t) = String c t.
Proof. intro H. simpl. now rewrite H. Qed.

(** [rstrip] keeps the first character of a string that does not start
    with white space. *)
Lemma rstrip_head (c : ascii) (t : string) :
  is_space c = false -> exists t', rstrip (String c t) = String c t'.
Proof.
  intro H. simpl. destruct (rstrip t) as [| e t'].
  - rewrite H. now exists EmptyString.
  - now exists (String e t').
Qed.

Lemma rstrip_idempotent (s : string) : rstrip (rstrip s) = rstrip s.
Proof.
  induction s as [| d s IH]; simpl; [reflexivity |].
  destruct (rstrip s) as [| e t] eqn:E.
  - destruct (is_space d) eqn:Ed; simpl; [reflexivity | now rewrite Ed].
  - simpl in *. destruct (match rstrip t with
                          | EmptyString =>
                              if is_space e then EmptyString else String e EmptyString
                          | String a s0 => String e (String a s0)
                          end) eqn:E2; [discriminate IH | now rewrite IH].
Qed.

(** What [rstrip] returns does not end with white space. *)
Lemma rstrip_last (s t : string) (c : ascii) :
  rstrip s = (t ++ String c EmptyString)%string -> is_space c = false.
Proof.
  revert t. induction s as [| d s IH]; intro t; simpl.
  - destruct t; discriminate.
  - destruct (rstrip s) as [| e u] eqn:E.
    + destruct (is_space d) eqn:Ed.
      * destruct t; discriminate.
      * destruct t as [| x [| y t]]; simpl; try discriminate.
        intro H. injection H as <-. exact Ed.
    + destruct t as [| x t]; simpl; [discriminate |].
      intro H. injection H as _ H. now apply (IH t).
Qed.

Lemma strip_idempotent (s : string) : strip (strip s) = strip s.
Proof.
  unfold strip. destruct (lstrip s) as [| c t] eqn:E; [reflexivity |].
  pose proof (lstrip_head s c t E) as Hc.
  destruct (rstrip_head c t Hc) as [t' Ht']. rewrite Ht'.
  rewrite (lstrip_fixed c t' Hc), <- Ht'. apply rstrip_idempotent.
Qed.

Lemma rstrip_first (s : string) (c : ascii) (t : string) :
  rstrip s = String c t -> exists t0, s = String c t0.
Proof.
  destruct s as [| d s]; simpl; [discriminate |].
  destruct (rstrip s) as [| e u].
  - destruct (is_space d); [discriminate |].
    intro H. injection H as <- _. now exists s.
  - intro H. injection H as <- _. now exists s.
Qed.

Lemma lstrip_strip (s : string) : lstrip (strip s) = strip s.
Proof.
  unfold strip. destruct (rstrip (lstrip s)) as [| c t] eqn:E; [reflexivity |].
  destruct (rstrip_first _ c t E) as [t0 Ht0].
  apply lstrip_fixed. now apply (lstrip_head s c t0).
Qed.

(** X18: a cleaned label is a fixed point of the three steps of the
    cleaning: it holds no NUL character and neither starts nor ends with
    white space, so cleaning it again changes nothing. *)
Theorem clean_fixed_point (v : option string) :
  ~ In zero (list_ascii_of_string (clean v)) /\
  remove_nul (clean v) = clean v /\
  lstrip (clean v) = clean v /\
  rstrip (clean v) = clean v /\
  clean (Some (clean v)) = clean v.
Proof.
  assert (Hnul : ~ In zero (list_ascii_of_string (clean v))).
  { unfold clean, strip. intro H.
    apply rstrip_chars, lstrip_chars, remove_nul_chars in H. tauto. }
  split; [exact Hnul |]. split; [now apply remove_nul_id |].
  split; [apply lstrip_strip |]. split; [apply rstrip_idempotent |].
  unfold clean at 1. simpl. rewrite (remove_nul_id _ Hnul).
  apply strip_idempotent.
Qed.

Lemma lstrip_spaces (w s : string) :
  forallb is_space (list_ascii_of_string w) = true ->
  lstrip (w ++ s)%string = lstrip s.
Proof.
  induction w as [| c w IH]; simpl; [reflexivity |].
  intro H. apply andb_true_iff in H. destruct H as [-> Hw]. now apply IH.
Qed.

Lemma rstrip_spaces (s w : string) :
  forallb is_space (list_ascii_of_string w) = true ->
  rstrip (s ++ w)%string = rstrip s.
Proof.
  intro Hw. induction s as [| c s IH]; simpl.
  - induction w as [| d w IHw]; simpl; [reflexivity |].
    simpl in Hw. apply andb_true_iff in Hw. destruct Hw as [Hd Hw].
    now rewrite (IHw Hw), Hd.
  - now rewrite IH.
Qed.

Lemma strip_spaces (w1 s w2 : string) :
  forallb is_space (list_ascii_of_string w1) = true ->
  forallb is_space (list_ascii_of_string w2) = true ->
  strip (w1 ++ s ++ w2)%string = strip s.
Proof.
  intros H1 H2. unfold strip. rewrite (lstrip_spaces w1 _ H1).
  induction s as [| c s IH]; simpl.
  - replace (lstrip w2) with (lstrip (w2 ++ EmptyString)%string).
    + now rewrite (lstrip_spaces w2 _ H2).
    + f_equal. clear. induction w2 as [| d w IH]; simpl; [reflexivity | now rewrite IH].
  - destruct (is_space c); [exact IH |].
    change (String c (s ++ w2)%string) with (String c s ++ w2)%string.
    now apply rstrip_spaces.
Qed.

Lemma remove_nul_padding (p : string) :
  forallb (fun c => Ascii.eqb c zero || is_space c) (list_ascii_of_string p) = true ->
  forallb is_space (list_ascii_of_string (remove_nul p)) = true.
Proof.
  induction p as [| c p IH]; simpl; [reflexivity |].
  intro H. apply andb_true_iff in H. destruct H as [Hc Hp].
  destruct (Ascii.eqb c zero); simpl in *; [now apply IH |].
  rewrite Hc. now apply IH.
Qed.

Lemma clean_padded (p1 s p2 : string) :
  forallb (fun c => Ascii.eqb c zero || is_space c) (list_ascii_of_string p1) = true ->
  forallb (fun c => Ascii.eqb c zero || is_space c) (list_ascii_of_string p2) = true ->
  clean (Some (p1 ++ s ++ p2)%string) = clean (Some s).
Proof.
  intros H1 H2. unfold clean. simpl. rewrite !remove_nul_app.
  apply strip_spaces; now apply remove_nul_padding.
Qed.

(** X19: NUL characters and white space around a label do not matter:
    a label wrapped in any run of them on either side is cleaned to the
    same text as the label alone. *)
Theorem clean_padding (p1 s p2 : string) :
  forallb (fun c => Ascii.eqb c zero || is_space c) (list_ascii_of_string p1) = true ->
  forallb (fun c => Ascii.eqb c zero || is_space c) (list_ascii_of_string p2) = true ->
  clean (Some (p1 ++ s ++ p2)%string) = clean (Some s).
Proof. apply clean_padded. Qed.

Lemma clean_padding_witness :
  clean (Some (String zero " " ++ "North" ++ String zero (String zero " "))%string)
  = clean (Some "North").
Proof.
  apply (clean_padding (String zero " ") "North" (String zero (String zero " ")));
    reflexivity.
Defined.

Lemma digit_plain (c : ascii) (d : nat) :
  digit_of c = Some d -> Ascii.eqb c zero = false /\ is_space c = false.
Proof.
  intro H. apply digit_of_spec in H. destruct H as [Hn Hd]. split.
  - destruct (Ascii.eqb_spec c zero) as [-> | _]; [| reflexivity].
    change (nat_of_ascii zero) with 0%nat in Hn. lia.
  - unfold is_space. rewrite Hn.
    repeat match goal with
      | |- context [(?a <=? ?b)%nat] => destruct (Nat.leb_spec a b)
      | |- context [(?a =? ?b)%nat] => destruct (Nat.eqb_spec a b)
      end; simpl; try reflexivity; lia.
Qed.

Lemma yyyy_mm_clean (s : string) : is_yyyy_mm s = true -> clean (Some s) = s.
Proof.
  intro H.
  destruct (is_yyyy_mm_inv s H)
    as (a & b & c & d & e & f & da & db & dc & dd & de & df
        & -> & (Ha & Hb & Hc & Hd & He & Hf) & _ & _).
  apply digit_plain in Ha, Hb, Hc, Hd, He, Hf.
  destruct Ha as [Ha1 Ha2], Hb as [Hb1 Hb2], Hc as [Hc1 Hc2],
           Hd as [Hd1 Hd2], He as [He1 He2], Hf as [Hf1 Hf2].
  unfold clean, strip. simpl.
  rewrite Ha1, Hb1, Hc1, Hd1, He1, Hf1. simpl. rewrite Ha2. simpl.
  now rewrite Hf2.
Qed.

(** X20: a row whose Month is a label of the form YYYY-MM, possibly
    wrapped in NUL characters and white space, and within the range of a
    timestamp, survives the cleaning: it is in the cleaned frame with its
    month parsed and its region cleaned. *)
Theorem clean_df_keeps (in_bounds : nat * nat -> bool) (df : list RegionPlots.row)
    (r : RegionPlots.row) (p1 s p2 : string) (p : nat * nat) :
  In r df ->
  Month r = Some (p1 ++ s ++ p2)%string ->
  forallb (fun c => Ascii.eqb c zero || is_space c) (list_ascii_of_string p1) = true ->
  forallb (fun c => Ascii.eqb c zero || is_space c) (list_ascii_of_string p2) = true ->
  is_yyyy_mm s = true ->
  to_period s = Some p ->
  in_bounds p = true ->
  In {| c_Month := p;
        c_Region := clean (Region r);
        c_Total_Units_Sold := Total_Units_Sold r;
        c_Weighted_Avg_Inventory := Weighted_Avg_Inventory r;
        c_Sell_Through_Rate_Percent := Sell_Through_Rate_Percent r |}
     (clean_df in_bounds df).
Proof.
  intros Hr Hm H1 H2 Hs Hp Hb. unfold clean_df. apply in_flat_map.
  exists r. split; [exact Hr |]. unfold clean_row, to_datetime.
  rewrite Hm, (clean_padded p1 s p2 H1 H2), (yyyy_mm_clean s Hs), Hp, Hb.
  now left.
Qed.

Lemma clean_df_keeps_witness :
  let r := {| Month := Some (String zero "2024-03 ");
              Region := Some " North";
              Total_Units_Sold := PyNum 410;
              Weighted_Avg_Inventory := PyNum 96.5;
              Sell_Through_Rate_Percent := PyNum 80.95 |} in
  In {| c_Month := (2024, 3)%nat;
        c_Region := "North";
        c_Total_Units_Sold := PyNum 410;
        c_Weighted_Avg_Inventory := PyNum 96.5;
        c_Sell_Through_Rate_Percent := PyNum 80.95 |}
     (clean_df (fun p => (1678 <=? fst p) && (fst p <=? 2261))%nat [r]).
Proof.
  intro r.
  apply (clean_df_keeps _ [r] r (String zero EmptyString) "2024-03" " " (2024, 3)%nat);
    try reflexivity.
  now left.
Defined.

(** X21: the cleaning only drops rows: every row of the cleaned frame
    comes from a row of the data whose Month is not NULL and whose cleaned
    label parses to the month it now carries, and the cleaned frame is no
    longer than the data. *)
Theorem clean_df_sound (in_bounds : nat * nat -> bool) (df : list RegionPlots.row) :
  (List.length (clean_df in_bounds df) <= List.length df)%nat /\
  forall c, In c (clean_df in_bounds df) ->
    exists r, In r df /\
              Month r <> None /\
              to_period (clean (Month r)) = Some (c_Month c) /\
              in_bounds (c_Month c) = true /\
              c_Region c = clean (Region r).
Proof.
  split.
  - unfold clean_df. induction df as [| r t IH]; simpl; [lia |].
    rewrite length_app. destruct (clean_row in_bounds r); simpl; lia.
  - intros c Hc. unfold clean_df in Hc. apply in_flat_map in Hc.
    destruct Hc as [r [Hr Hc]]. exists r. split; [exact Hr |].
    unfold clean_row, to_datetime in Hc.
    destruct (Month r) as [m |] eqn:Em.
    + split; [discriminate |].
      destruct (to_period (clean (Some m))) as [p |]; [| destruct Hc].
      destruct (in_bounds p) eqn:Eb; [| destruct Hc].
      destruct Hc as [<- | []]. simpl. auto.
    + vm_compute in Hc. destruct Hc.
Qed.

(** ** storeid_numberofproducts_stock.py: the statuses of the query *)

Import StockQuery.

Lemma stock_status_case_label (level : option Q) :
  In (stock_status_case level) status_order.
Proof.
  unfold stock_status_case. destruct level as [q |]; [| simpl; tauto].
  destruct (Qeq_bool q 0); [simpl; tauto |].
  destruct (Qle_bool q 10); [simpl; tauto |].
  destruct (Qle_bool q 20); simpl; tauto.
Qed.

(** X22: the fixed-cutoff status of the query is monotone in a non-negative
    inventory level: with more stock the status never moves to an earlier
    entry of status_order. *)
Theorem stock_status_case_monotone (q1 q2 : Q) :
  0 <= q1 -> q1 <= q2 ->
  exists k1 k2,
    get_loc String.eqb (stock_status_case (Some q1)) status_order = Some k1 /\
    get_loc String.eqb (stock_status_case (Some q2)) status_order = Some k2 /\
    (k1 <= k2)%nat.
Proof.
  intros H0 Hle. unfold stock_status_case.
  destruct (Qeq_bool q1 0) eqn:E1;
    [apply Qeq_bool_iff in E1 | apply Qeq_bool_neq in E1];
    (destruct (Qeq_bool q2 0) eqn:E2;
     [apply Qeq_bool_iff in E2 | apply Qeq_bool_neq in E2]);
    cmp_cases;
    try (exfalso; lra);
    (do 2 eexists; split; [reflexivity |]; split; [reflexivity |]; lia).
Qed.

Lemma stock_status_case_monotone_witness :
  exists k1 k2,
    get_loc String.eqb (stock_status_case (Some 7)) status_order = Some k1 /\
    get_loc String.eqb (stock_status_case (Some 15)) status_order = Some k2 /\
    (k1 <= k2)%nat.
Proof.
  apply (stock_status_case_monotone 7 15); unfold Qle; simpl; lia.
Defined.

Section ColumnNames.
Context {R C V : Type}.
Variable C_eqb : C -> C -> bool.
Hypothesis C_eqb_eq : forall a b, C_eqb a b = true <-> a = b.

Lemma NoDup_ensure_column (v : option V) (f : frame R C V) (c : C) :
  NoDup (map fst (columns f)) ->
  NoDup (map fst (columns (ensure_column C_eqb v f c))).
Proof.
  intro H. unfold ensure_column.
  destruct (has_column C_eqb f c) eqn:E; simpl; [exact H |].
  unfold set_column. simpl. rewrite E, map_app. simpl.
  apply NoDup_app; [exact H | constructor; [tauto | constructor] |].
  intros x Hx [<- | []].
  apply (has_column_In C_eqb C_eqb_eq) in Hx. congruence.
Qed.

Lemma NoDup_ensure_all (v : option V) (l : list C) (f : frame R C V) :
  NoDup (map fst (columns f)) ->
  NoDup (map fst (columns (fold_left (ensure_column C_eqb v) l f))).
Proof.
  revert f. induction l as [| c t IH]; intros f H; simpl; [exact H |].
  now apply IH, NoDup_ensure_column.
Qed.
End ColumnNames.

Lemma pivot_df_columns_NoDup (df : list StoreStock.row) :
  NoDup (map fst (columns (StoreStock.pivot_df df))).
Proof.
  unfold StoreStock.pivot_df, ensure_columns.
  apply (NoDup_ensure_all String.eqb String.eqb_eq). simpl.
  rewrite map_map. simpl. rewrite map_id.
  apply NoDup_sorted, (NoDup_unique String.eqb String.eqb_eq).
Qed.

(** X23: on data whose statuses are those of the query, the stacked-bar
    table has exactly the four columns of status_order, whichever of the
    statuses occur in the data. *)
Theorem pivot_df_four_columns (df : list StoreStock.row) :
  (forall r, In r df -> exists level, stock_status r = stock_status_case level) ->
  (forall c, In c (map fst (columns (StoreStock.pivot_df df))) <-> In c status_order) /\
  List.length (columns (StoreStock.pivot_df df)) = 4%nat.
Proof.
  intro Hdf.
  assert (Hset : forall c, In c (map fst (columns (StoreStock.pivot_df df)))
                           <-> In c status_order).
  { intro c. rewrite <- (has_column_In String.eqb String.eqb_eq), pivot_df_columns.
    split; [| tauto]. intros [[r [Hr <-]] | H]; [| exact H].
    destruct (Hdf r Hr) as [level ->]. apply stock_status_case_label. }
  split; [exact Hset |].
  rewrite <- (length_map fst). apply Nat.le_antisymm.
  - change 4%nat with (List.length status_order).
    apply NoDup_incl_length; [apply pivot_df_columns_NoDup |].
    intros c Hc. now apply Hset.
  - change 4%nat with (List.length status_order).
    apply NoDup_incl_length.
    + repeat constructor; simpl; intuition discriminate.
    + intros c Hc. now apply Hset.
Qed.

Lemma pivot_df_four_columns_witness :
  List.length (columns (StoreStock.pivot_df
     [ {| StoreStock.store_id := 1; region := "East";
          stock_status := stock_status_case (Some 25); product_count := 12 |} ]))
  = 4%nat.
Proof.
  apply pivot_df_four_columns.
  intros r [<- | []]. now exists (Some 25).
Defined.

(** ** Reshaping without aggregation *)

Section PivotReshape.
Context {R C V : Type}.
Variables (R_eqb R_leb : R -> R -> bool) (C_eqb C_leb : C -> C -> bool).
Hypothesis R_eqb_eq : forall a b, R_eqb a b = true <-> a = b.
Hypothesis C_eqb_eq : forall a b, C_eqb a b = true <-> a = b.

Lemma has_duplicate_NoDup (keys : list (R * C)) :
  NoDup keys -> has_duplicate R_eqb C_eqb keys = false.
Proof.
  induction 1 as [| k t Hk Ht IH]; simpl; [reflexivity |].
  rewrite IH, orb_false_r.
  destruct (existsb (fun k' => R_eqb (fst k) (fst k') && C_eqb (snd k) (snd k')) t)
    eqn:E; [| reflexivity].
  exfalso. apply Hk. apply existsb_exists in E. destruct E as [k' [Hin Heq]].
  apply andb_true_iff in Heq. destruct Heq as [H1 H2].
  apply R_eqb_eq in H1. apply C_eqb_eq in H2.
  destruct k, k'. simpl in *. now subst.
Qed.

Lemma lookup_cell_found (df : long_table R C V) (r : R) (c : C) (v : option V) :
  NoDup (map fst df) -> In (r, c, v) df ->
  lookup_cell R_eqb C_eqb df r c = v.
Proof.
  unfold lookup_cell. induction df as [| x t IH]; simpl; [tauto |].
  intros Hn Hin. inversion Hn as [| ? ? Hx Ht]; subst.
  destruct (R_eqb (fst (fst x)) r && C_eqb (snd (fst x)) c) eqn:E.
  - apply andb_true_iff in E. destruct E as [E1 E2].
    apply R_eqb_eq in E1. apply C_eqb_eq in E2.
    destruct Hin as [-> | Hin]; [reflexivity |].
    exfalso. apply Hx. apply in_map_iff. exists (r, c, v). split; [| exact Hin].
    destruct x as [[r' c'] v']. simpl in *. now subst.
  - destruct Hin as [-> | Hin]; [| now apply IH].
    simpl in E. apply andb_false_iff in E.
    destruct E as [E | E]; exfalso.
    + assert (R_eqb r r = true) by now apply R_eqb_eq. congruence.
    + assert (C_eqb c c = true) by now apply C_eqb_eq. congruence.
Qed.

Lemma lookup_cell_absent (df : long_table R C V) (r : R) (c : C) :
  (forall v, ~ In (r, c, v) df) -> lookup_cell R_eqb C_eqb df r c = None.
Proof.
  unfold lookup_cell. intro H.
  destruct (find (fun x => R_eqb (fst (fst x)) r && C_eqb (snd (fst x)) c) df)
    as [x |] eqn:E; [| reflexivity].
  apply find_some in E. destruct E as [Hin Heq].
  apply andb_true_iff in Heq. destruct Heq as [E1 E2].
  apply R_eqb_eq in E1. apply C_eqb_eq in E2.
  destruct x as [[r' c'] v']. simpl in *. subst. now destruct (H v').
Qed.

Lemma loc_pivot (df : long_table R C V) (f : frame R C V) (r : R) (c : C) :
  pivot R_eqb R_leb C_eqb C_leb df = Some f ->
  (exists c' v, In (r, c', v) df) ->
  (exists r' v, In (r', c, v) df) ->
  loc R_eqb C_eqb f r c = Ok (lookup_cell R_eqb C_eqb df r c).
Proof.
  unfold pivot. destruct (has_duplicate R_eqb C_eqb (map fst df)); [discriminate |].
  intros Hf [c' [v Hr]] [r' [v' Hc]]. injection Hf as <-. unfold loc. simpl.
  rewrite (find_column_map C_eqb C_leb C_eqb_eq).
  - assert (Hin : In r (sorted R_leb (unique R_eqb (map (fun x => fst (fst x)) df)))).
    { apply In_sorted, (In_unique R_eqb R_eqb_eq), in_map_iff.
      now exists (r, c', v). }
    destruct (get_loc_In R_eqb R_eqb_eq r _ Hin) as [i [Hi Hn]].
    rewrite Hi. simpl. now rewrite nth_error_map, Hn.
  - apply In_sorted, (In_unique C_eqb C_eqb_eq), in_map_iff.
    now exists (r', c, v').
Qed.

Lemma loc_fillna (v : V) (f : frame R C V) (r : R) (c : C) :
  loc R_eqb C_eqb (fillna v f) r c =
  match loc R_eqb C_eqb f r c with
  | Ok (Some x) => Ok (Some x)
  | Ok None => Ok (Some v)
  | Raise e => Raise e
  end.
Proof.
  unfold loc, fillna. simpl.
  induction (columns f) as [| col t IH]; simpl.
  - reflexivity.
  - destruct (C_eqb c (fst col)); [| exact IH].
    destruct (get_loc R_eqb r (index f)) as [i |]; [| reflexivity].
    simpl. rewrite nth_error_map.
    now destruct (nth_error (snd col) i) as [[x |] |].
Qed.
End PivotReshape.

(** ** storeid_numberofproducts_stock.py: the heatmap of stock issues *)

Import StockHeatmap.

Lemma NoDup_combine_fst {A B : Type} (l1 : list A) (l2 : list B) :
  NoDup l1 -> NoDup (map fst (combine l1 l2)).
Proof.
  intro H. revert l2. induction H as [| x t Hx Ht IH]; intro l2; simpl;
    [constructor |].
  destruct l2 as [| y l2]; simpl; [constructor |].
  constructor; [| apply IH].
  intro Hin. apply in_map_iff in Hin. destruct Hin as [[x' y'] [Heq Hin]].
  simpl in Heq. subst x'. apply in_combine_l in Hin. contradiction.
Qed.

Lemma In_combine_nth {A B : Type} (l1 : list A) (l2 : list B) (i : nat) (x : A) (y : B) :
  nth_error l1 i = Some x -> nth_error l2 i = Some y -> In (x, y) (combine l1 l2).
Proof.
  revert l2 i. induction l1 as [| a t IH]; intros l2 i H1 H2.
  - destruct i; discriminate H1.
  - destruct l2 as [| b l2]; [destruct i; discriminate H2 |].
    destruct i as [| i]; simpl in *.
    + injection H1 as ->. injection H2 as ->. now left.
    + right. now apply (IH l2 i).
Qed.

Lemma nth_error_series_add (a b : list (option Q)) (i : nat) (x y : Q) :
  nth_error a i = Some (Some x) -> nth_error b i = Some (Some y) ->
  nth_error (series_add a b) i = Some (Some (x + y)).
Proof.
  revert b i. induction a as [| u a IH]; intros b i Ha Hb.
  - destruct i; discriminate Ha.
  - destruct b as [| w b]; [destruct i; discriminate Hb |].
    destruct i as [| i]; simpl in *.
    + injection Ha as ->. injection Hb as ->. reflexivity.
    + now apply IH.
Qed.

Lemma column_loc (f : frame (Z * string) string Q) (k : Z * string) (c : string)
    (v : option Q) :
  loc key_eqb String.eqb f k c = Ok v ->
  exists col i, column f c = Ok col /\
                get_loc key_eqb k (index f) = Some i /\
                nth_error col i = Some v.
Proof.
  unfold loc, column.
  destruct (find (fun col => String.eqb c (fst col)) (columns f)) as [col |];
    [| discriminate].
  destruct (get_loc key_eqb k (index f)) as [i |]; [| discriminate].
  destruct (nth_error (snd col) i) as [v' |] eqn:E; [| discriminate].
  intro H. injection H as <-. now exists (snd col), i.
Qed.

Lemma pivot_df_index_NoDup (df : list StoreStock.row) :
  NoDup (index (StoreStock.pivot_df df)).
Proof.
  unfold StoreStock.pivot_df, ensure_columns.
  rewrite (index_ensure_all String.eqb). simpl.
  apply NoDup_sorted, (NoDup_unique key_eqb key_eqb_eq).
Qed.

Lemma NoDup_map_injective {A B : Type} (g : A -> B) (l : list A) :
  (forall x y, g x = g y -> x = y) -> NoDup l -> NoDup (map g l).
Proof.
  intros Hg H. induction H as [| x t Hx Ht IH]; simpl; constructor; [| exact IH].
  intro Hin. apply in_map_iff in Hin. destruct Hin as [y [Heq Hy]].
  apply Hg in Heq. now subst.
Qed.

Lemma issue_rows_NoDup (df : list StoreStock.row) (totals : list (option Q)) :
  NoDup (map fst (issue_rows (StoreStock.pivot_df df) totals)).
Proof.
  unfold issue_rows. rewrite map_map. simpl.
  rewrite <- (map_map fst (fun k : Z * string => (snd k, fst k))).
  apply NoDup_map_injective.
  - intros [a b] [a' b'] H. simpl in H. now injection H as -> ->.
  - apply NoDup_combine_fst, pivot_df_index_NoDup.
Qed.

Lemma column_defined (df : list StoreStock.row) (status : string) :
  In status status_order ->
  exists col, column (StoreStock.pivot_df df) status = Ok col.
Proof.
  intro H. unfold column.
  destruct (find_column_some String.eqb (StoreStock.pivot_df df) status) as [col ->].
  - apply pivot_df_columns. now right.
  - now exists (snd col).
Qed.

Lemma pivot_heat_runs (df : list StoreStock.row) :
  exists a b c h0,
    column (StoreStock.pivot_df df) "Out of Stock" = Ok a /\
    column (StoreStock.pivot_df df) "Below Reorder" = Ok b /\
    column (StoreStock.pivot_df df) "Near Reorder" = Ok c /\
    pivot String.eqb String.leb Z.eqb Z.leb
      (issue_rows (StoreStock.pivot_df df) (series_add (series_add a b) c)) = Some h0 /\
    pivot_heat (StoreStock.pivot_df df) = Ok (Some (fillna 0 h0)).
Proof.
  destruct (column_defined df "Out of Stock") as [a Ha]; [simpl; tauto |].
  destruct (column_defined df "Below Reorder") as [b Hb]; [simpl; tauto |].
  destruct (column_defined df "Near Reorder") as [c Hc]; [simpl; tauto |].
  exists a, b, c.
  assert (Hp : exists h0,
             pivot String.eqb String.leb Z.eqb Z.leb
               (issue_rows (StoreStock.pivot_df df) (series_add (series_add a b) c))
             = Some h0).
  { unfold pivot.
    rewrite (has_duplicate_NoDup String.eqb Z.eqb String.eqb_eq Z.eqb_eq)
      by apply issue_rows_NoDup.
    eexists. reflexivity. }
  destruct Hp as [h0 Hp]. exists h0. repeat split; try assumption.
  unfold pivot_heat, total_issues. rewrite Ha, Hb, Hc. simpl. now rewrite Hp.
Qed.

Lemma issue_rows_total (df : list StoreStock.row) (a b c : list (option Q))
    (s : Z) (g : string) :
  column (StoreStock.pivot_df df) "Out of Stock" = Ok a ->
  column (StoreStock.pivot_df df) "Below Reorder" = Ok b ->
  column (StoreStock.pivot_df df) "Near Reorder" = Ok c ->
  In (s, g) (index (StoreStock.pivot_df df)) ->
  exists x y z,
    loc key_eqb String.eqb (StoreStock.pivot_df df) (s, g) "Out of Stock" = Ok (Some x) /\
    loc key_eqb String.eqb (StoreStock.pivot_df df) (s, g) "Below Reorder" = Ok (Some y) /\
    loc key_eqb String.eqb (StoreStock.pivot_df df) (s, g) "Near Reorder" = Ok (Some z) /\
    In (g, s, Some (x + y + z))
       (issue_rows (StoreStock.pivot_df df) (series_add (series_add a b) c)).
Proof.
  intros Ha Hb Hc Hk.
  assert (Hcell : forall status, In status status_order ->
            exists v, loc key_eqb String.eqb (StoreStock.pivot_df df) (s, g) status
                      = Ok (Some v)).
  { intros status Hs. eexists. apply pivot_df_cell; [exact Hk |].
    apply pivot_df_columns. now right. }
  destruct (Hcell "Out of Stock") as [x Hx]; [simpl; tauto |].
  destruct (Hcell "Below Reorder") as [y Hy]; [simpl; tauto |].
  destruct (Hcell "Near Reorder") as [z Hz]; [simpl; tauto |].
  exists x, y, z. repeat split; try assumption.
  destruct (get_loc_In key_eqb key_eqb_eq (s, g) _ Hk) as [i [Hi Hn]].
  destruct (column_loc _ _ _ _ Hx) as [a' [i1 [Ha' [Hi1 Hn1]]]].
  destruct (column_loc _ _ _ _ Hy) as [b' [i2 [Hb' [Hi2 Hn2]]]].
  destruct (column_loc _ _ _ _ Hz) as [c' [i3 [Hc' [Hi3 Hn3]]]].
  assert (a' = a) by congruence. assert (b' = b) by congruence.
  assert (c' = c) by congruence.
  assert (i1 = i) by congruence. assert (i2 = i) by congruence.
  assert (i3 = i) by congruence. subst.
  unfold issue_rows. apply in_map_iff. exists ((s, g), Some (x + y + z)).
  split; [reflexivity |].
  apply (In_combine_nth _ _ i); [exact Hn |].
  apply nth_error_series_add; [| exact Hn3].
  now apply nth_error_series_add.
Qed.

(** X24: the heatmap table is always built: the three status columns it
    adds exist and no (region, store) pair occurs twice, so neither a
    KeyError nor the ValueError of the reshape can occur.  For a (store,
    region) of the stacked-bar table its cell is the sum of the "Out of
    Stock", "Below Reorder" and "Near Reorder" cells of that row. *)
Theorem pivot_heat_total (df : list StoreStock.row) (s : Z) (g : string) :
  In (s, g) (index (StoreStock.pivot_df df)) ->
  exists h x y z,
    pivot_heat (StoreStock.pivot_df df) = Ok (Some h) /\
    loc key_eqb String.eqb (StoreStock.pivot_df df) (s, g) "Out of Stock" = Ok (Some x) /\
    loc key_eqb String.eqb (StoreStock.pivot_df df) (s, g) "Below Reorder" = Ok (Some y) /\
    loc key_eqb String.eqb (StoreStock.pivot_df df) (s, g) "Near Reorder" = Ok (Some z) /\
    loc String.eqb Z.eqb h g s = Ok (Some (x + y + z)).
Proof.
  intro Hk.
  destruct (pivot_heat_runs df) as [a [b [c [h0 (Ha & Hb & Hc & Hp & Hh)]]]].
  destruct (issue_rows_total df a b c s g Ha Hb Hc Hk) as [x [y [z (Hx & Hy & Hz & Hin)]]].
  exists (fillna 0 h0), x, y, z. repeat split; try assumption.
  rewrite loc_fillna.
  rewrite (loc_pivot String.eqb String.leb Z.eqb Z.leb String.eqb_eq Z.eqb_eq _ h0 g s Hp).
  - rewrite (lookup_cell_found String.eqb String.leb Z.eqb Z.leb String.eqb_eq Z.eqb_eq _ g s
               (Some (x + y + z))); [reflexivity | apply issue_rows_NoDup | exact Hin].
  - eauto.
  - eauto.
Qed.

Lemma pivot_heat_total_witness :
  let df := [ {| StoreStock.store_id := 1; region := "East";
                 stock_status := "Near Reorder"; product_count := 2 |};
              {| StoreStock.store_id := 2; region := "West";
                 stock_status := "Out of Stock"; product_count := 3 |} ] in
  exists h x y z,
    pivot_heat (StoreStock.pivot_df df) = Ok (Some h) /\
    loc key_eqb String.eqb (StoreStock.pivot_df df) (2%Z, "West") "Out of Stock"
      = Ok (Some x) /\
    loc key_eqb String.eqb (StoreStock.pivot_df df) (2%Z, "West") "Below Reorder"
      = Ok (Some y) /\
    loc key_eqb String.eqb (StoreStock.pivot_df df) (2%Z, "West") "Near Reorder"
      = Ok (Some z) /\
    loc String.eqb Z.eqb h "West" 2%Z = Ok (Some (x + y + z)).
Proof.
  intro df. apply (pivot_heat_total df 2%Z "West").
  vm_compute. right. left. reflexivity.
Defined.

(** X25: a region and a store that both occur in the stacked-bar table,
    but not as one of its rows, have the cell 0 in the heatmap table: the
    NaN of the reshape is filled. *)
Theorem pivot_heat_zero (df : list StoreStock.row) (s s' : Z) (g g' : string) :
  In (s, g') (index (StoreStock.pivot_df df)) ->
  In (s', g) (index (StoreStock.pivot_df df)) ->
  ~ In (s, g) (index (StoreStock.pivot_df df)) ->
  exists h,
    pivot_heat (StoreStock.pivot_df df) = Ok (Some h) /\
    loc String.eqb Z.eqb h g s = Ok (Some 0).
Proof.
  intros Hs Hg Hno.
  destruct (pivot_heat_runs df) as [a [b [c [h0 (Ha & Hb & Hc & Hp & Hh)]]]].
  destruct (issue_rows_total df a b c s g' Ha Hb Hc Hs) as [x1 [y1 [z1 (_ & _ & _ & H1)]]].
  destruct (issue_rows_total df a b c s' g Ha Hb Hc Hg) as [x2 [y2 [z2 (_ & _ & _ & H2)]]].
  exists (fillna 0 h0). split; [exact Hh |].
  rewrite loc_fillna.
  rewrite (loc_pivot String.eqb String.leb Z.eqb Z.leb String.eqb_eq Z.eqb_eq _ h0 g s Hp).
  - rewrite (lookup_cell_absent String.eqb Z.eqb String.eqb_eq Z.eqb_eq);
      [reflexivity |].
    intros v Hin. apply Hno. unfold issue_rows in Hin. apply in_map_iff in Hin.
    destruct Hin as [[[s0 g0] v0] [Heq Hin]]. simpl in Heq.
    injection Heq as -> -> _. now apply in_combine_l in Hin.
  - eauto.
  - eauto.
Qed.

Lemma pivot_heat_zero_witness :
  let df := [ {| StoreStock.store_id := 1; region := "East";
                 stock_status := "Near Reorder"; product_count := 2 |};
              {| StoreStock.store_id := 2; region := "West";
                 stock_status := "Out of Stock"; product_count := 3 |} ] in
  exists h,
    pivot_heat (StoreStock.pivot_df df) = Ok (Some h) /\
    loc String.eqb Z.eqb h "West" 1%Z = Ok (Some 0).
Proof.
  intro df. apply (pivot_heat_zero df 1%Z 2%Z "West" "East").
  - vm_compute. left. reflexivity.
  - vm_compute. right. left. reflexivity.
  - vm_compute. intros [H | [H | []]]; discriminate H.
Defined.

(** ** monthly_performance(kpis).py: one colour per marker *)

Lemma Forall2_length_eq {A B : Type} (P : A -> B -> Prop) (l : list A) (l' : list B) :
  Forall2 P l l' -> List.length l = List.length l'.
Proof. induction 1; simpl; congruence. Qed.

(** X27: when the colours of a store's markers are computed, there is one
    colour for each row of the store, and each is a colour of color_map:
    the scatter call gets as many colours as points. *)
Theorem colors_length (sub : list MonthlyPerformance.row) (kpi : string)
    (cs : list string) :
  MonthlyPerformance.colors sub kpi = Ok cs ->
  List.length cs = List.length sub /\
  Forall (fun c => In c (map snd color_map)) cs.
Proof.
  unfold MonthlyPerformance.colors. intro H. apply mapM_Forall2 in H. split.
  - symmetry. exact (Forall2_length_eq _ _ _ H).
  - induction H as [| r c sub' cs' Hr _ IH]; constructor; [| exact IH].
    destruct (kpi_value r kpi) as [v |]; simpl in Hr; [| discriminate].
    destruct (traffic_light v kpi) as [label |] eqn:Et; simpl in Hr; [| discriminate].
    apply traffic_light_labels in Et. simpl in Et.
    destruct Et as [<- | [<- | [<- | [<- | []]]]];
      vm_compute in Hr; injection Hr as <-; simpl; tauto.
Qed.

Lemma colors_length_witness :
  List.length ["#4caf50"; "#f44336"] = 2%nat /\
  Forall (fun c => In c (map snd color_map)) ["#4caf50"; "#f44336"].
Proof.
  apply (colors_length
           [ {| MonthlyPerformance.store_id := 1; month := "2023-01";
                average_stock_level := PyNum 120; stockout_rate := PyNum 0.05;
                inventory_turnover := PyNum 2; sell_through_rate := PyNum 60 |};
             {| MonthlyPerformance.store_id := 1; month := "2023-02";
                average_stock_level := PyNum 60; stockout_rate := PyNum 0.05;
                inventory_turnover := PyNum 2; sell_through_rate := PyNum 60 |} ]
           "average_stock_level").
  reflexivity.
Defined.

(** ** Sorting with a comparison that can raise *)

Section SortedRaisingFacts.
Context {A : Type}.
Variable lt : A -> A -> result bool.

Lemma insert_raising_returns (x : A) (l : list A) :
  (forall y, In y l -> exists b, lt y x = Ok b) ->
  exists l', insert_raising lt x l = Ok l' /\
             forall z, In z l' <-> z = x \/ In z l.
Proof.
  induction l as [| y t IH]; intro H; simpl.
  - exists [x]. split; [reflexivity |]. simpl. intro z. split; intuition auto.
  - destruct (H y (or_introl eq_refl)) as [b ->]. simpl. destruct b.
    + destruct IH as [t' [-> Ht']]; [intros z Hz; apply H; now right |].
      simpl. exists (y :: t'). split; [reflexivity |].
      intro z. simpl. rewrite Ht'. split; intuition auto.
    + exists (x :: y :: t). split; [reflexivity |].
      intro z. simpl. split; intuition auto.
Qed.

Lemma sorted_raising_returns (l : list A) :
  (forall x y, In x l -> In y l -> exists b, lt x y = Ok b) ->
  exists l', sorted_raising lt l = Ok l' /\ forall z, In z l' <-> In z l.
Proof.
  induction l as [| x t IH]; intro H; simpl.
  - exists []. split; [reflexivity | tauto].
  - destruct IH as [t' [-> Ht']]; [intros y z Hy Hz; apply H; now right |].
    simpl.
    destruct (insert_raising_returns x t') as [l' [Hl' Hin]].
    { intros y Hy. apply H; [right; now apply Ht' | now left]. }
    exists l'. split; [exact Hl' |].
    intro z. rewrite Hin, Ht'. simpl. split; intuition auto.
Qed.

Lemma insert_raising_length (x : A) (l l' : list A) :
  insert_raising lt x l = Ok l' -> List.length l' = S (List.length l).
Proof.
  revert l'. induction l as [| y t IH]; intro l'; simpl.
  - intro H. injection H as <-. reflexivity.
  - destruct (lt y x) as [[|] |]; simpl; try discriminate.
    + destruct (insert_raising lt x t) as [t' |]; simpl; [| discriminate].
      intro H. injection H as <-. simpl. now rewrite (IH t').
    + intro H. injection H as <-. reflexivity.
Qed.

Lemma sorted_raising_length (l l' : list A) :
  sorted_raising lt l = Ok l' -> List.length l' = List.length l.
Proof.
  revert l'. induction l as [| x t IH]; intro l'; simpl.
  - intro H. injection H as <-. reflexivity.
  - destruct (sorted_raising lt t) as [t' |]; simpl; [| discriminate].
    intro H. apply insert_raising_length in H. now rewrite H, (IH t').
Qed.

Lemma insert_raising_raises (e0 : exn) (x : A) (l : list A) (e : exn) :
  (forall a b e', lt a b = Raise e' -> e' = e0) ->
  insert_raising lt x l = Raise e -> e = e0.
Proof.
  intro Hlt. induction l as [| y t IH]; simpl; [discriminate |].
  destruct (lt y x) as [[|] | e'] eqn:E; simpl.
  - destruct (insert_raising lt x t); simpl; [discriminate |].
    intro H. injection H as <-. now apply IH.
  - discriminate.
  - intro H. injection H as <-. now apply (Hlt y x).
Qed.

Lemma sorted_raising_raises (e0 : exn) (l : list A) (e : exn) :
  (forall a b e', lt a b = Raise e' -> e' = e0) ->
  sorted_raising lt l = Raise e -> e = e0.
Proof.
  intro Hlt. induction l as [| x t IH]; simpl; [discriminate |].
  destruct (sorted_raising lt t) as [t' |]; simpl.
  - now apply insert_raising_raises.
  - intro H. injection H as <-. now apply IH.
Qed.
End SortedRaisingFacts.

(** ** monthly_performance(kpis).py: NULL months and the end of a run *)

Lemma label_lt_type_error (a b : option string) (e : exn) :
  MonthlyRun.label_lt a b = Raise e -> e = TypeError.
Proof. destruct a, b; simpl; congruence. Qed.

Lemma In_None_cases {B : Type} (l : list (option B)) :
  In None l \/ ~ In None l.
Proof.
  induction l as [| [b |] t IH]; simpl.
  - now right.
  - destruct IH as [H | H]; [left; now right | right].
    intros [H' | H']; [discriminate | contradiction].
  - left. now left.
Qed.

(** A list of labels with None in it is sorted without a TypeError only
    when None is all there is. *)
Lemma sorted_labels_none (l l' : list (option string)) :
  sorted_raising MonthlyRun.label_lt l = Ok l' -> In None l -> l = [None].
Proof.
  revert l'. induction l as [| x t IH]; intros l' Hs Hin; [destruct Hin |].
  simpl in Hs.
  destruct (sorted_raising MonthlyRun.label_lt t) as [t' |] eqn:Et;
    simpl in Hs; [| discriminate].
  pose proof (sorted_raising_length _ _ _ Et) as Hlen.
  destruct t as [| y t0].
  - destruct Hin as [-> | []]. reflexivity.
  - exfalso. destruct t' as [| y' t1]; [discriminate Hlen |].
    simpl in Hs.
    destruct (In_None_cases (y :: t0)) as [Hn | Hn].
    + pose proof (IH _ eq_refl Hn) as Ht. injection Ht as -> ->.
      simpl in Et. injection Et as <- <-. simpl in Hs.
      destruct x; discriminate Hs.
    + destruct Hin as [-> | Hin]; [| contradiction].
      destruct y'; discriminate Hs.
Qed.

Lemma run_kpi_value_defined (r : MonthlyRun.row) (kpi : string) :
  In kpi kpi_list -> exists v, MonthlyRun.kpi_value r kpi = Ok v.
Proof. intro H. each_kpi H; eexists; reflexivity. Qed.

Lemma run_colors_returns (sub : list MonthlyRun.row) (kpi : string) :
  In kpi kpi_list ->
  (forall r, In r sub -> MonthlyRun.kpi_value r kpi <> Ok PyNone) ->
  exists cs, MonthlyRun.colors sub kpi = Ok cs.
Proof.
  intros Hk Hsub. unfold MonthlyRun.colors.
  destruct (mapM_returns
              (fun r => v <- MonthlyRun.kpi_value r kpi ;;
                        c <- traffic_light v kpi ;;
                        dict_item color_map c) sub) as [cs [Hcs _]];
    [| now exists cs].
  intros r Hr.
  destruct (run_kpi_value_defined r kpi Hk) as [v Hv]. rewrite Hv. simpl.
  destruct (traffic_light v kpi) as [label | e] eqn:Et.
  - simpl. apply (color_map_total v kpi label Et).
  - apply traffic_light_raise_cases in Et. destruct Et as [-> _].
    now destruct (Hsub r Hr).
Qed.

Lemma run_months_returns (df : list MonthlyRun.row) :
  (forall r, In r df -> MonthlyRun.month r <> None) ->
  exists ms, MonthlyRun.months df = Ok ms /\ ~ In None ms.
Proof.
  intro H. unfold MonthlyRun.months.
  assert (Hsome : ~ In None (unique MonthlyRun.label_eqb (map MonthlyRun.month df))).
  { intro Hin. apply In_unique_from in Hin.
    - destruct Hin as [Hin _]. apply in_map_iff in Hin.
      destruct Hin as [r [Hm Hr]]. now apply (H r Hr).
    - intros [a |] [b |]; simpl; try (split; [discriminate | congruence]).
      + rewrite String.eqb_eq. split; congruence.
      + tauto. }
  destruct (sorted_raising_returns MonthlyRun.label_lt
              (unique MonthlyRun.label_eqb (map MonthlyRun.month df)))
    as [ms [Hms Hin]].
  - intros [a |] [b |] Ha Hb; try contradiction. simpl. eauto.
  - exists ms. split; [exact Hms |]. intro Hn. now apply Hin in Hn.
Qed.

Lemma run_last3months_returns (ms : list (option string)) :
  ~ In None ms -> exists l3, MonthlyRun.last3months ms = Ok l3.
Proof.
  intro H. unfold MonthlyRun.last3months.
  destruct (sorted_raising_returns MonthlyRun.label_lt ms) as [l [-> _]].
  - intros [a |] [b |] Ha Hb; try contradiction. simpl. eauto.
  - simpl. eauto.
Qed.

Lemma run_dashboard_returns (df : list MonthlyRun.row) :
  (forall r kpi, In r df -> MonthlyRun.kpi_value r kpi <> Ok PyNone) ->
  MonthlyRun.dashboard df
  = (repeat EvDraw (1 + 8 * List.length (MonthlyRun.stores df)) ++ [EvShow], Ok tt).
Proof.
  intro Hdf. unfold MonthlyRun.dashboard.
  rewrite (for_each_draws kpi_list _ (List.length (MonthlyRun.stores df) * 2)).
  - set (n := List.length (MonthlyRun.stores df)).
    unfold io_bind. cbn [fst snd emit app].
    replace (1 + 8 * n)%nat with (S (List.length kpi_list * (n * 2)))
      by (simpl; lia).
    reflexivity.
  - intros kpi Hk. apply for_each_draws. intros store _.
    destruct (run_colors_returns (filter (MonthlyRun.of_store store) df) kpi Hk)
      as [cs Hcs].
    { intros r Hr. apply filter_In in Hr. apply Hdf. tauto. }
    unfold io_bind. simpl. rewrite Hcs. reflexivity.
Qed.

Lemma run_sparklines_returns (df : list MonthlyRun.row) (ms : list (option string)) :
  ~ In None ms ->
  MonthlyRun.sparklines df ms
  = (repeat EvDraw (1 + 4 * List.length (MonthlyRun.stores df)) ++ [EvShow], Ok tt).
Proof.
  intro Hms. unfold MonthlyRun.sparklines.
  destruct (run_last3months_returns ms Hms) as [l3 ->].
  unfold io_bind at 1 2. cbn [fst snd emit lift app].
  rewrite (for_each_draws kpi_list _ (List.length (MonthlyRun.stores df) * 1)).
  - set (n := List.length (MonthlyRun.stores df)).
    unfold io_bind. cbn [fst snd emit app].
    replace (1 + 4 * n)%nat with (S (List.length kpi_list * (n * 1)))
      by (simpl; lia).
    reflexivity.
  - intros kpi _. apply for_each_draws. intros store _. reflexivity.
Qed.

(** X3: when the connection and the query succeed, no month of the data
    is NULL and no KPI measure is None, the run closes the connection,
    draws and shows both figures and exits with status 0; with n store
    ids the dashboard takes 1 + 8 n drawing calls and the sparklines
    1 + 4 n. *)
Theorem main_succeeds (w : world (list MonthlyRun.row)) (df : list MonthlyRun.row) :
  connect_ok w = true ->
  read_sql w = Ok df ->
  (forall r, In r df -> MonthlyRun.month r <> None) ->
  (forall r kpi, In r df -> MonthlyRun.kpi_value r kpi <> Ok PyNone) ->
  MonthlyRun.main w
  = [EvConnect; EvReadSql; EvClose]
    ++ repeat EvDraw (1 + 8 * List.length (MonthlyRun.stores df)) ++ [EvShow]
    ++ repeat EvDraw (1 + 4 * List.length (MonthlyRun.stores df))
    ++ [EvShow; EvExit 0].
Proof.
  intros Hc Hq Hm Hdf.
  destruct (run_months_returns df Hm) as [ms [Hms Hnone]].
  unfold MonthlyRun.main, run, MonthlyRun.script, get_connection.
  rewrite Hc, Hq. unfold io_bind. cbn [fst snd emit lift io_ret app].
  rewrite Hms. cbn [fst snd app].
  rewrite (run_dashboard_returns df Hdf), (run_sparklines_returns df ms Hnone).
  cbn [fst snd exit_status app]. rewrite <- !app_assoc. reflexivity.
Qed.

Lemma main_succeeds_witness :
  MonthlyRun.main
    {| connect_ok := true;
       read_sql := Ok [ {| MonthlyRun.store_id := Some 4%Z;
                           MonthlyRun.month := Some "2024-03";
                           MonthlyRun.average_stock_level := PyNum 85;
                           MonthlyRun.stockout_rate := PyNaN;
                           MonthlyRun.inventory_turnover := PyNum 1.2;
                           MonthlyRun.sell_through_rate := PyNum 71 |} ] |}
  = [EvConnect; EvReadSql; EvClose] ++ repeat EvDraw 9 ++ [EvShow]
    ++ repeat EvDraw 5 ++ [EvShow; EvExit 0].
Proof.
  refine (main_succeeds
            {| connect_ok := true;
               read_sql := Ok [ {| MonthlyRun.store_id := Some 4%Z;
                                   MonthlyRun.month := Some "2024-03";
                                   MonthlyRun.average_stock_level := PyNum 85;
                                   MonthlyRun.stockout_rate := PyNaN;
                                   MonthlyRun.inventory_turnover := PyNum 1.2;
                                   MonthlyRun.sell_through_rate := PyNum 71 |} ] |}
            [ {| MonthlyRun.store_id := Some 4%Z;
                 MonthlyRun.month := Some "2024-03";
                 MonthlyRun.average_stock_level := PyNum 85;
                 MonthlyRun.stockout_rate := PyNaN;
                 MonthlyRun.inventory_turnover := PyNum 1.2;
                 MonthlyRun.sell_through_rate := PyNum 71 |} ]
            eq_refl eq_refl _ _).
  - intros r [<- | []]. discriminate.
  - intros r kpi [<- | []]. unfold MonthlyRun.kpi_value. simpl.
    repeat match goal with
      | |- context [String.eqb kpi ?s] => destruct (String.eqb kpi s)
      end; discriminate.
Defined.

(** X28: when the connection and the query succeed and the data has a row
    with a NULL month beside a row with a month label, sorting the labels
    compares None with a string: the TypeError ends the run after the
    connection is closed and before anything is drawn, with exit status
    1. *)
Theorem main_null_month (w : world (list MonthlyRun.row)) (df : list MonthlyRun.row) :
  connect_ok w = true ->
  read_sql w = Ok df ->
  (exists r, In r df /\ MonthlyRun.month r = None) ->
  (exists r, In r df /\ MonthlyRun.month r <> None) ->
  MonthlyRun.main w = [EvConnect; EvReadSql; EvClose; EvExit 1].
Proof.
  intros Hc Hq [r1 [Hr1 Hn]] [r2 [Hr2 Hs]].
  assert (Hlabel : forall a b, MonthlyRun.label_eqb a b = true <-> a = b).
  { intros [a |] [b |]; simpl; try (split; [discriminate | congruence]).
    - rewrite String.eqb_eq. split; congruence.
    - tauto. }
  assert (Hm : MonthlyRun.months df = Raise TypeError).
  { unfold MonthlyRun.months.
    destruct (sorted_raising MonthlyRun.label_lt
                (unique MonthlyRun.label_eqb (map MonthlyRun.month df)))
      as [ms | e] eqn:E.
    - exfalso.
      assert (H1 : In None (unique MonthlyRun.label_eqb (map MonthlyRun.month df))).
      { apply (In_unique _ Hlabel). rewrite <- Hn. now apply in_map. }
      assert (H2 : In (MonthlyRun.month r2)
                      (unique MonthlyRun.label_eqb (map MonthlyRun.month df))).
      { apply (In_unique _ Hlabel). now apply in_map. }
      rewrite (sorted_labels_none _ _ E H1) in H2.
      destruct H2 as [H2 | []]. now apply Hs.
    - f_equal. apply (sorted_raising_raises MonthlyRun.label_lt TypeError _ _
                        label_lt_type_error E). }
  unfold MonthlyRun.main, run, MonthlyRun.script, get_connection.
  rewrite Hc, Hq. unfold io_bind. cbn [fst snd emit lift io_ret app].
  rewrite Hm. reflexivity.
Qed.

Lemma main_null_month_witness :
  MonthlyRun.main
    {| connect_ok := true;
       read_sql := Ok [ {| MonthlyRun.store_id := Some 4%Z;
                           MonthlyRun.month := Some "2024-03";
                           MonthlyRun.average_stock_level := PyNum 85;
                           MonthlyRun.stockout_rate := PyNum 0.2;
                           MonthlyRun.inventory_turnover := PyNum 1.2;
                           MonthlyRun.sell_through_rate := PyNum 71 |};
                        {| MonthlyRun.store_id := Some 4%Z;
                           MonthlyRun.month := None;
                           MonthlyRun.average_stock_level := PyNum 60;
                           MonthlyRun.stockout_rate := PyNum 0.2;
                           MonthlyRun.inventory_turnover := PyNum 1.2;
                           MonthlyRun.sell_through_rate := PyNum 71 |} ] |}
  = [EvConnect; EvReadSql; EvClose; EvExit 1].
Proof.
  eapply main_null_month.
  - reflexivity.
  - reflexivity.
  - eexists. split; [right; left; reflexivity | reflexivity].
  - eexists. split; [left; reflexivity | discriminate].
Defined.
